(** * The seats.io intermediary: [netlify/functions/seatsio-handler.js]

    A shallow embedding of [exports.handler] and the properties of its
    request dispatch.

    Conventions of the embedding.
    - A JavaScript string is a sequence of 16-bit code units.  It is held
      in a [string] with each code unit written out on its own: one
      [ascii] for a code unit below 128, two up to 2047, three above, in
      the manner of UTF-8 ([Str.unit]).  Surrogates are code units like
      the others, so that concatenation and equality of strings are those
      of the [string]s.
    - A value produced by [JSON.parse] is a [json]; a JavaScript value that
      may also be [undefined] is an [option json] ([None] is [undefined]).
    - A Number is an IEEE 754 binary64 value, [spec_float] with precision 53
      and maximal exponent 1024.
    - [await fetch(...)] is the handler's only interaction with the outside.
      A computation is a tree [io A] whose nodes are the outbound calls and
      the [console.error] lines, and whose leaves are a returned value or a
      thrown error.  [run] plays such a tree against an upstream and yields
      the completion together with the list of effects performed.
    - [process.env] is a [process_env], and the handler is defined on every
      one of them.  An [env] is a [process_env] whose secret key [btoa]
      accepts (code units up to 255, as the keys the reservation service
      issues).  With another key [btoa] throws before any call is made, and
      the handler answers 500.  A property that names the call the handler
      makes is stated for an [env]; the others hold of every
      [process_env] and are stated so. *)

From Stdlib Require Import ZArith String Ascii List Lia.
From Stdlib Require Import Floats.SpecFloat DecimalString.
From stdpp Require Import base option list strings gmap.

Local Open Scope Z_scope.
Set Warnings "-register-all".

(** ** Strings *)

Module Str.

Definition chars (s : string) : list ascii := list_ascii_of_string s.
Definition of_chars (l : list ascii) : string := string_of_list_ascii l.

Definition code (c : ascii) : Z := Z.of_N (N_of_ascii c).
Definition of_code (n : Z) : ascii := ascii_of_N (Z.to_N n).

Fixpoint repeat0 (n : nat) : string :=
  match n with
  | O => ""
  | S n' => String "0" (repeat0 n')
  end.

Fixpoint is_prefix (p s : list ascii) : bool :=
  match p, s with
  | [], _ => true
  | a :: p', b :: s' => Ascii.eqb a b && is_prefix p' s'
  | _ :: _, [] => false
  end.

Fixpoint occurs_in (p s : list ascii) : bool :=
  is_prefix p s ||
  match s with
  | [] => false
  | _ :: s' => occurs_in p s'
  end.

(** [contains needle hay]: [needle] occurs in [hay] as a run of
    consecutive code units. *)
Definition contains (needle hay : string) : bool :=
  occurs_in (chars needle) (chars hay).

Definition of_Z (n : Z) : string :=
  NilZero.string_of_uint (N.to_uint (Z.to_N n)).

(** The [ascii]s that stand for the code unit [u]. *)
Definition unit (u : Z) : list ascii :=
  if u <? 128 then [of_code u]
  else if u <? 2048 then [of_code (192 + u / 64); of_code (128 + u mod 64)]
  else [of_code (224 + u / 4096); of_code (128 + (u / 64) mod 64);
        of_code (128 + u mod 64)].

(** The second or third [ascii] of a code unit. *)
Definition is_tail (c : ascii) : bool := (128 <=? code c) && (code c <=? 191).

(** The code units of a string when all of them are below 256: what
    [btoa] takes for bytes. *)
Fixpoint latin1 (l : list ascii) : option (list Z) :=
  match l with
  | [] => Some []
  | a :: rest =>
      if code a <? 128 then option_map (cons (code a)) (latin1 rest)
      else
        match rest with
        | b :: rest' =>
            if ((code a =? 194) || (code a =? 195)) && is_tail b
            then option_map (cons ((code a - 192) * 64 + (code b - 128))) (latin1 rest')
            else None
        | [] => None
        end
  end.

(** [dq s] is [s] with a double quote in place of every apostrophe: a
    way to write down a JSON text. *)
Definition dq (s : string) : string :=
  of_chars (List.map (fun c => if Ascii.eqb c "'" then of_code 34 else c) (chars s)).

End Str.

(** ** Numbers: IEEE 754 binary64 *)

Module Number.

Definition prec : Z := 53.
Definition emax : Z := 1024.

#[export] Instance spec_float_eq_dec : EqDecision spec_float.
Proof. solve_decision. Defined.

(** Number of decimal digits of a positive integer. *)
Definition digits10 (n : Z) : Z := Z.of_nat (String.length (Str.of_Z n)).

(** The Number value of the decimal [digits * 10^exp10], signed by [neg]:
    the nearest binary64 value, ties to even, as [JSON.parse] and numeric
    literals compute it.  A negative power of ten is divided out with 66
    spare bits and a sticky bit, so that the one rounding made by
    [binary_normalize] is the rounding of the exact quotient. *)
Definition of_decimal (neg : bool) (digits exp10 : Z) : spec_float :=
  if digits <=? 0 then S754_zero neg
  else
    let nd := digits10 digits in
    let sgn := if neg then (-1) else 1 in
    if 310 <? nd + exp10 then S754_infinity neg
    else if nd + exp10 <? -330 then S754_zero neg
    else if 0 <=? exp10 then
      match binary_normalize prec emax (sgn * (digits * 10 ^ exp10)) 0 neg with
      | S754_zero _ => S754_zero neg
      | x => x
      end
    else
      let d := 10 ^ (- exp10) in
      let s := Z.max 0 (Z.log2 d - Z.log2 digits + 66) in
      let q := (digits * 2 ^ s) / d in
      let r := (digits * 2 ^ s) mod d in
      let sticky := if r =? 0 then 0 else 1 in
      match binary_normalize prec emax (sgn * (2 * q + sticky)) (- s - 1) neg with
      | S754_zero _ => S754_zero neg
      | x => x
      end.

(** ToBoolean on a Number: [+0], [-0] and [NaN] are falsy. *)
Definition truthy (x : spec_float) : bool :=
  match x with
  | S754_zero _ | S754_nan => false
  | S754_infinity _ | S754_finite _ _ _ => true
  end.

Definition is_finite (x : spec_float) : bool :=
  match x with
  | S754_zero _ | S754_finite _ _ _ => true
  | S754_infinity _ | S754_nan => false
  end.

(** [v = num / den >= 10^t] *)
Definition ratio_ge_pow10 (num den t : Z) : bool :=
  if 0 <=? t then den * 10 ^ t <=? num else den <=? num * 10 ^ (- t).

(** The [n] of Number::toString: [10^(n-1) <= num/den < 10^n]. *)
Definition decimal_exponent (num den : Z) : Z :=
  let t := digits10 num - digits10 den in
  if ratio_ge_pow10 num den t then t + 1 else t.

(** The candidates with [k] digits for the value [num/den] whose decimal
    exponent is [n]: the [k]-digit integers just below and just above
    [num/den * 10^(k-n)], the nearer one first. *)
Definition candidates (num den n k : Z) : list (Z * Z) :=
  let '(a, b) := if 0 <=? k - n then (num * 10 ^ (k - n), den)
                 else (num, den * 10 ^ (n - k)) in
  let lo := a / b in
  let r := a mod b in
  let hi := if lo + 1 =? 10 ^ k then (10 ^ (k - 1), n + 1) else (lo + 1, n) in
  if r =? 0 then [(lo, n)]
  else match 2 * r ?= b with
       | Lt => [(lo, n); hi]
       | Gt => [hi; (lo, n)]
       | Eq => if Z.even lo then [(lo, n); hi] else [hi; (lo, n)]
       end.

Definition reads_back (x : spec_float) (k : Z) (c : Z * Z) : bool :=
  bool_decide (of_decimal false (fst c) (snd c - k) = x).

(** The shortest digits [s] (with [k] of them) and exponent [n] such that
    [s * 10^(n-k)] reads back as the value [m * 2^e]. *)
Fixpoint shortest (fuel : nat) (x : spec_float) (num den n k : Z) : Z * Z * Z :=
  let cs := candidates num den n k in
  match List.find (reads_back x k) cs with
  | Some c => (fst c, snd c, k)
  | None =>
      match fuel with
      | O => (num * 10 ^ (k - n) / den, n, k)
      | S fuel' => shortest fuel' x num den n (k + 1)
      end
  end.

Definition layout (ds : string) (k n : Z) : string :=
  if (k <=? n) && (n <=? 21) then ds +:+ Str.repeat0 (Z.to_nat (n - k))
  else if (0 <? n) && (n <=? 21) then
    String.substring 0 (Z.to_nat n) ds +:+ "." +:+
    String.substring (Z.to_nat n) (Z.to_nat (k - n)) ds
  else if (-6 <? n) && (n <=? 0) then
    "0." +:+ Str.repeat0 (Z.to_nat (- n)) +:+ ds
  else
    let e := n - 1 in
    let es := (if e <? 0 then "-" else "+") +:+ Str.of_Z (Z.abs e) in
    if k =? 1 then ds +:+ "e" +:+ es
    else String.substring 0 1 ds +:+ "." +:+
         String.substring 1 (Z.to_nat (k - 1)) ds +:+ "e" +:+ es.

(** Number::toString(x), radix 10. *)
Definition toString (x : spec_float) : string :=
  match x with
  | S754_nan => "NaN"
  | S754_zero _ => "0"
  | S754_infinity s => if s then "-Infinity" else "Infinity"
  | S754_finite s m e =>
      let '(num, den) := if 0 <=? e then (Zpos m * 2 ^ e, 1)
                         else (Zpos m, 2 ^ (- e)) in
      let n := decimal_exponent num den in
      let '(d, n', k) := shortest 16 (S754_finite false m e) num den n 1 in
      (if s then "-" else "") +:+ layout (Str.of_Z d) k n'
  end.

(** *** Number literals of the JSON grammar *)

Definition is_digit (c : ascii) : bool := (48 <=? Str.code c) && (Str.code c <=? 57).

Fixpoint span_digits (l : list ascii) : list ascii * list ascii :=
  match l with
  | [] => ([], [])
  | c :: l' =>
      if is_digit c then let '(d, r) := span_digits l' in (c :: d, r)
      else ([], l)
  end.

Definition digits_value (l : list ascii) : Z :=
  fold_left (fun acc c => 10 * acc + (Str.code c - 48)) l 0.

Definition nonempty {A} (l : list A) : bool :=
  match l with [] => false | _ :: _ => true end.

(** An optional minus sign; an integer part, [0] or digits that do not
    start with [0]; an optional fraction, a dot and digits; an optional
    exponent, [e] or [E], an optional sign and digits.  The value is the
    Number nearest to the decimal written. *)
Definition of_lexeme (l : list ascii) : option spec_float :=
  let '(neg, l1) :=
    match l with
    | c :: r => if Str.code c =? 45 then (true, r) else (false, l)
    | [] => (false, [])
    end in
  let '(int, l2) := span_digits l1 in
  let int_ok :=
    match int with
    | [] => false
    | c :: rest => negb (Str.code c =? 48) || negb (nonempty rest)
    end in
  let '(frac, frac_ok, l3) :=
    match l2 with
    | c :: r =>
        if Str.code c =? 46
        then let '(f, r') := span_digits r in (f, nonempty f, r')
        else ([], true, l2)
    | [] => ([], true, [])
    end in
  let '(ex, ex_ok, l4) :=
    match l3 with
    | c :: r =>
        if (Str.code c =? 101) || (Str.code c =? 69) then
          let '(eneg, r1) :=
            match r with
            | s :: r' => if Str.code s =? 45 then (true, r')
                         else if Str.code s =? 43 then (false, r')
                         else (false, r)
            | [] => (false, [])
            end in
          let '(ed, r2) := span_digits r1 in
          ((if eneg then - digits_value ed else digits_value ed), nonempty ed, r2)
        else (0, true, l3)
    | [] => (0, true, [])
    end in
  if int_ok && frac_ok && ex_ok && negb (nonempty l4)
  then Some (of_decimal neg (digits_value (int ++ frac)) (ex - Z.of_nat (List.length frac)))
  else None.

End Number.

(** ** JavaScript values and errors *)

Record js_error := mk_error { err_name : string; err_message : string }.

Definition Error (msg : string) : js_error := mk_error "Error" msg.
Definition TypeError (msg : string) : js_error := mk_error "TypeError" msg.
Definition SyntaxError (msg : string) : js_error := mk_error "SyntaxError" msg.

(** The completion of an evaluation: a value, or a thrown error. *)
Inductive completion (A : Type) : Type :=
| Normal (a : A)
| Throws (e : js_error).
Arguments Normal {A} a.
Arguments Throws {A} e.

Inductive json : Type :=
| JNull
| JBool (b : bool)
| JNumber (x : spec_float)
| JString (s : string)
| JArray (items : list json)
| JObject (props : list (string * json)).

(** ToBoolean.  [undefined], [null], [false], [0], [-0], [NaN] and the empty
    string are falsy; every array and every object is truthy. *)
Definition ToBoolean (v : option json) : bool :=
  match v with
  | None => false
  | Some JNull => false
  | Some (JBool b) => b
  | Some (JNumber x) => Number.truthy x
  | Some (JString s) => negb (String.eqb s "")
  | Some (JArray _) | Some (JObject _) => true
  end.

(** ToString of a string that may be [undefined] (an environment variable). *)
Definition ToString_env (v : option string) : string :=
  match v with
  | Some s => s
  | None => "undefined"
  end.

(** *** Own properties

    [props] lists the own properties of an object in the order in which
    they are enumerated: array indices first, ascending, then the other
    keys in creation order. *)

Module Obj.

Fixpoint get (props : list (string * json)) (k : string) : option json :=
  match props with
  | [] => None
  | (k', v) :: rest => if String.eqb k' k then Some v else get rest k
  end.

Fixpoint all_digits (l : list ascii) : bool :=
  match l with
  | [] => true
  | c :: l' => (48 <=? Str.code c) && (Str.code c <=? 57) && all_digits l'
  end.

Definition digits_value (l : list ascii) : Z :=
  fold_left (fun acc c => 10 * acc + (Str.code c - 48)) l 0.

(** The array index a key denotes, if it is the canonical decimal
    spelling of an integer below [2^32 - 1]. *)
Definition array_index (k : string) : option Z :=
  match Str.chars k with
  | [] => None
  | c :: rest =>
      if all_digits (c :: rest)
         && (negb (Str.code c =? 48) || match rest with [] => true | _ => false end)
         && (Z.of_nat (List.length (c :: rest)) <=? 10)
         && (digits_value (c :: rest) <? 4294967295)
      then Some (digits_value (c :: rest))
      else None
  end.

Fixpoint has (props : list (string * json)) (k : string) : bool :=
  match props with
  | [] => false
  | (k', _) :: rest => String.eqb k' k || has rest k
  end.

Fixpoint replace (props : list (string * json)) (k : string) (v : json)
  : list (string * json) :=
  match props with
  | [] => []
  | (k', v') :: rest =>
      if String.eqb k' k then (k', v) :: rest else (k', v') :: replace rest k v
  end.

(** Place a new index key [i] among the index keys that lead the list. *)
Fixpoint place_index (props : list (string * json)) (i : Z) (k : string) (v : json)
  : list (string * json) :=
  match props with
  | [] => [(k, v)]
  | (k', v') :: rest =>
      match array_index k' with
      | Some j => if j <? i then (k', v') :: place_index rest i k v
                  else (k, v) :: (k', v') :: rest
      | None => (k, v) :: (k', v') :: rest
      end
  end.

(** CreateDataProperty on an ordinary object: a key that exists keeps its
    place and takes the new value. *)
Definition set (props : list (string * json)) (k : string) (v : json)
  : list (string * json) :=
  if has props k then replace props k v
  else match array_index k with
       | Some i => place_index props i k v
       | None => props ++ [(k, v)]
       end.

End Obj.

(** [v.k] for a property name [k] that no built-in prototype defines (the
    handler reads [action], [seatId] and [holdToken]): the own property of
    an object, [undefined] on any other value, and a TypeError on [null]. *)
Definition get_prop (v : json) (k : string) : completion (option json) :=
  match v with
  | JNull =>
      Throws (TypeError ("Cannot read properties of null (reading '" +:+ k +:+ "')"))
  | JObject props => Normal (Obj.get props k)
  | _ => Normal None
  end.

(** [const { k } = v]: as [get_prop], with the TypeError of a destructuring. *)
Definition destructure (v : json) (k : string) : completion (option json) :=
  match v with
  | JNull =>
      Throws (TypeError ("Cannot destructure property '" +:+ k +:+
                         "' of '(intermediate value)' as it is null."))
  | JObject props => Normal (Obj.get props k)
  | _ => Normal None
  end.

(** ToString of a parsed value, as a template literal applies it.  An
    object gives [[object Object]] through [Object.prototype.toString],
    unless it has an own property [toString]: what JSON.parse puts there is
    never a function, [valueOf] gives back the object, and the conversion
    throws a TypeError.  An array joins its elements with commas, [null]
    elements giving nothing, and throws when an element does. *)
Fixpoint ToString (v : json) : completion string :=
  match v with
  | JNull => Normal "null"
  | JBool b => Normal (if b then "true" else "false")
  | JNumber x => Normal (Number.toString x)
  | JString s => Normal s
  | JArray items =>
      (fix join (l : list json) : completion string :=
         match l with
         | [] => Normal ""
         | x :: rest =>
             match (match x with JNull => Normal "" | _ => ToString x end) with
             | Throws err => Throws err
             | Normal s =>
                 match rest with
                 | [] => Normal s
                 | _ :: _ =>
                     match join rest with
                     | Throws err => Throws err
                     | Normal t => Normal (s +:+ "," +:+ t)
                     end
                 end
             end
         end) items
  | JObject props =>
      if Obj.has props "toString"
      then Throws (TypeError "Cannot convert object to primitive value")
      else Normal "[object Object]"
  end.

(** ** JSON.stringify *)

Module JSON.

Definition hex_digit (n : Z) : ascii :=
  if n <? 10 then Str.of_code (48 + n) else Str.of_code (87 + n).

(** QuoteJSONString, one code unit at a time. *)
Definition quote_char (c : ascii) : string :=
  let n := Str.code c in
  if n =? 8 then "\b"
  else if n =? 9 then "\t"
  else if n =? 10 then "\n"
  else if n =? 12 then "\f"
  else if n =? 13 then "\r"
  else if n =? 34 then String "\" (String c "")
  else if n =? 92 then "\\"
  else if n <? 32 then
    "\u00" +:+ String (hex_digit (n / 16)) (String (hex_digit (n mod 16)) "")
  else String c "".

(** A surrogate, [a b c] standing for a code unit from d800 to dfff; a
    leading one, up to dbff, and a trailing one. *)
Definition is_surrogate (a b c : ascii) : bool :=
  (Str.code a =? 237) && (160 <=? Str.code b) && (Str.code b <=? 191) && Str.is_tail c.

Definition is_leading (b : ascii) : bool := Str.code b <=? 175.
Definition is_trailing (b : ascii) : bool := 176 <=? Str.code b.

(** The escape of the surrogate whose second and third [ascii] are [b]
    and [c]: a backslash, [u] and four hexadecimal digits. *)
Definition escape_unit (b c : ascii) : list ascii :=
  let u := 53248 + (Str.code b - 128) * 64 + (Str.code c - 128) in
  Str.chars "\u"
  ++ [hex_digit (u / 4096); hex_digit ((u / 256) mod 16);
      hex_digit ((u / 16) mod 16); hex_digit (u mod 16)].

(** QuoteJSONString without its quotes.  A leading surrogate followed by a
    trailing one is a pair and is written as it is; any other surrogate is
    escaped. *)
Fixpoint quote_list (l : list ascii) : list ascii :=
  match l with
  | [] => []
  | a :: rest =>
      match rest with
      | b :: c :: rest' =>
          if is_surrogate a b c then
            match rest' with
            | a' :: b' :: c' :: rest'' =>
                if is_leading b && is_surrogate a' b' c' && is_trailing b'
                then a :: b :: c :: a' :: b' :: c' :: quote_list rest''
                else escape_unit b c ++ quote_list rest'
            | _ => escape_unit b c ++ quote_list rest'
            end
          else Str.chars (quote_char a) ++ quote_list rest
      | _ => Str.chars (quote_char a) ++ quote_list rest
      end
  end.

Definition quote (s : string) : string :=
  let q := String (Str.of_code 34) "" in
  q +:+ Str.of_chars (quote_list (Str.chars s)) +:+ q.

(** SerializeJSONProperty with no replacer and no indentation, on parsed
    values: these carry no [toJSON], no function and no [undefined]. *)
Fixpoint stringify (v : json) : string :=
  match v with
  | JNull => "null"
  | JBool b => if b then "true" else "false"
  | JNumber x => if Number.is_finite x then Number.toString x else "null"
  | JString s => quote s
  | JArray items => "[" +:+ String.concat "," (List.map stringify items) +:+ "]"
  | JObject props =>
      "{" +:+
      String.concat ","
        (List.map (fun kv => quote (fst kv) +:+ ":" +:+ stringify (snd kv)) props)
      +:+ "}"
  end.

(** An object literal whose property values may be [undefined]: the
    properties JSON.stringify keeps. *)
Fixpoint defined_props (fields : list (string * option json)) : list (string * json) :=
  match fields with
  | [] => []
  | (k, Some v) :: rest => (k, v) :: defined_props rest
  | (_, None) :: rest => defined_props rest
  end.

(** JSON.stringify of an object literal with the given properties. *)
Definition stringify_literal (fields : list (string * option json)) : string :=
  stringify (JObject (defined_props fields)).

(** *** JSON.parse

    The text is cut into tokens by a machine that reads one code unit at
    a time, and the tokens are assembled by a second machine that keeps
    the open arrays and objects on a stack. *)

Inductive token : Type :=
| TLBrace | TRBrace | TLBracket | TRBracket | TColon | TComma
| TString (s : string)
| TNumber (x : spec_float)
| TTrue | TFalse | TNull.

Inductive lex_state : Type :=
| LStart
| LString (acc : list ascii)
| LEscape (acc : list ascii)
| LUnicode (acc : list ascii) (hex : list Z)
| LNumber (acc : list ascii)
| LWord (acc : list ascii).

Definition is_space (n : Z) : bool :=
  (n =? 32) || (n =? 9) || (n =? 10) || (n =? 13).

Definition is_number_char (n : Z) : bool :=
  ((48 <=? n) && (n <=? 57)) || (n =? 43) || (n =? 45) || (n =? 46)
  || (n =? 101) || (n =? 69).

Definition is_lower (n : Z) : bool := (97 <=? n) && (n <=? 122).

Definition hex_value (n : Z) : option Z :=
  if (48 <=? n) && (n <=? 57) then Some (n - 48)
  else if (97 <=? n) && (n <=? 102) then Some (n - 87)
  else if (65 <=? n) && (n <=? 70) then Some (n - 55)
  else None.

Definition lex_start (c : ascii) : option (lex_state * list token) :=
  let n := Str.code c in
  if is_space n then Some (LStart, [])
  else if n =? 123 then Some (LStart, [TLBrace])
  else if n =? 125 then Some (LStart, [TRBrace])
  else if n =? 91 then Some (LStart, [TLBracket])
  else if n =? 93 then Some (LStart, [TRBracket])
  else if n =? 58 then Some (LStart, [TColon])
  else if n =? 44 then Some (LStart, [TComma])
  else if n =? 34 then Some (LString [], [])
  else if (n =? 45) || ((48 <=? n) && (n <=? 57)) then Some (LNumber [c], [])
  else if is_lower n then Some (LWord [c], [])
  else None.

Definition word_token (w : list ascii) : option token :=
  let s := Str.of_chars w in
  if String.eqb s "true" then Some TTrue
  else if String.eqb s "false" then Some TFalse
  else if String.eqb s "null" then Some TNull
  else None.

(** The token a pending number or word ends in. *)
Definition lex_flush (st : lex_state) : option (list token) :=
  match st with
  | LStart => Some []
  | LNumber acc =>
      match Number.of_lexeme (rev acc) with
      | Some x => Some [TNumber x]
      | None => None
      end
  | LWord acc =>
      match word_token (rev acc) with
      | Some t => Some [t]
      | None => None
      end
  | LString _ | LEscape _ | LUnicode _ _ => None
  end.

Definition lex_resume (st : lex_state) (c : ascii) : option (lex_state * list token) :=
  match lex_flush st, lex_start c with
  | Some ts, Some (st', ts') => Some (st', ts ++ ts')
  | _, _ => None
  end.

Definition lex_step (st : lex_state) (c : ascii) : option (lex_state * list token) :=
  let n := Str.code c in
  match st with
  | LStart => lex_start c
  | LString acc =>
      if n =? 34 then Some (LStart, [TString (Str.of_chars (rev acc))])
      else if n =? 92 then Some (LEscape acc, [])
      else if n <? 32 then None
      else Some (LString (c :: acc), [])
  | LEscape acc =>
      if (n =? 34) || (n =? 92) || (n =? 47) then Some (LString (c :: acc), [])
      else if n =? 98 then Some (LString (Str.of_code 8 :: acc), [])
      else if n =? 102 then Some (LString (Str.of_code 12 :: acc), [])
      else if n =? 110 then Some (LString (Str.of_code 10 :: acc), [])
      else if n =? 114 then Some (LString (Str.of_code 13 :: acc), [])
      else if n =? 116 then Some (LString (Str.of_code 9 :: acc), [])
      else if n =? 117 then Some (LUnicode acc [], [])
      else None
  | LUnicode acc hex =>
      match hex_value n, hex with
      | Some h, [a; b; d] =>
          let u := ((a * 16 + b) * 16 + d) * 16 + h in
          Some (LString (rev (Str.unit u) ++ acc), [])
      | Some h, _ => Some (LUnicode acc (hex ++ [h]), [])
      | None, _ => None
      end
  | LNumber acc =>
      if is_number_char n then Some (LNumber (c :: acc), []) else lex_resume st c
  | LWord acc =>
      if is_lower n then Some (LWord (c :: acc), []) else lex_resume st c
  end.

Fixpoint lex (st : lex_state) (text : list ascii) : option (list token) :=
  match text with
  | [] => lex_flush st
  | c :: rest =>
      match lex_step st c with
      | Some (st', ts) =>
          match lex st' rest with
          | Some ts' => Some (ts ++ ts')
          | None => None
          end
      | None => None
      end
  end.

(** The state the lexer is in after characters none of which ends a
    token: the inside of a string, of a number or of a word. *)
Fixpoint lex_quiet (st : lex_state) (text : list ascii) : option lex_state :=
  match text with
  | [] => Some st
  | c :: rest =>
      match lex_step st c with
      | Some (st', []) => lex_quiet st' rest
      | _ => None
      end
  end.

(** An open array with its items so far (last first), or an open object
    with its properties so far and the key that awaits its value. *)
Inductive frame : Type :=
| InArray (items : list json)
| InObject (props : list (string * json)) (key : option string).

Inductive mode : Type :=
| MValue          (* a value must follow *)
| MValueOrEnd     (* just after an opening bracket *)
| MKey            (* a key must follow *)
| MKeyOrEnd       (* just after an opening brace *)
| MColon          (* just after a key *)
| MAfter          (* just after a value inside an array or an object *)
| MDone (v : json).

Definition deliver (v : json) (stack : list frame) : option (mode * list frame) :=
  match stack with
  | [] => Some (MDone v, [])
  | InArray items :: st => Some (MAfter, InArray (v :: items) :: st)
  | InObject props (Some k) :: st => Some (MAfter, InObject (Obj.set props k v) None :: st)
  | InObject _ None :: _ => None
  end.

Definition scalar (t : token) : option json :=
  match t with
  | TString s => Some (JString s)
  | TNumber x => Some (JNumber x)
  | TTrue => Some (JBool true)
  | TFalse => Some (JBool false)
  | TNull => Some JNull
  | _ => None
  end.

Definition expect_value (t : token) (stack : list frame) : option (mode * list frame) :=
  match t with
  | TLBracket => Some (MValueOrEnd, InArray [] :: stack)
  | TLBrace => Some (MKeyOrEnd, InObject [] None :: stack)
  | _ => match scalar t with
         | Some v => deliver v stack
         | None => None
         end
  end.

Definition close (t : token) (stack : list frame) : option (mode * list frame) :=
  match t, stack with
  | TRBracket, InArray items :: st => deliver (JArray (rev items)) st
  | TRBrace, InObject props None :: st => deliver (JObject props) st
  | _, _ => None
  end.

Definition expect_key (t : token) (stack : list frame) : option (mode * list frame) :=
  match t, stack with
  | TString k, InObject props None :: st => Some (MColon, InObject props (Some k) :: st)
  | _, _ => None
  end.

Definition parse_step (m : mode) (stack : list frame) (t : token)
  : option (mode * list frame) :=
  match m with
  | MValue => expect_value t stack
  | MValueOrEnd =>
      match t with
      | TRBracket => close t stack
      | _ => expect_value t stack
      end
  | MKey => expect_key t stack
  | MKeyOrEnd =>
      match t with
      | TRBrace => close t stack
      | _ => expect_key t stack
      end
  | MColon =>
      match t with
      | TColon => Some (MValue, stack)
      | _ => None
      end
  | MAfter =>
      match t, stack with
      | TComma, InArray _ :: _ => Some (MValue, stack)
      | TComma, InObject _ _ :: _ => Some (MKey, stack)
      | _, _ => close t stack
      end
  | MDone _ => None
  end.

(** The tokens are assembled until one does not fit, or until they run
    out.  When they run out where a value must follow, the SyntaxError has
    the message every version of V8 gives, [Unexpected end of JSON input].
    In every other case the message of V8 names the token, the place or
    what was expected, in a wording that changes with the version; the
    model has one text for all of them, which stands for that wording. *)
Fixpoint assemble (m : mode) (stack : list frame) (ts : list token) : completion json :=
  match ts with
  | [] =>
      match m with
      | MDone v => Normal v
      | MValue | MValueOrEnd => Throws (SyntaxError "Unexpected end of JSON input")
      | _ => Throws (SyntaxError "Unexpected token in JSON")
      end
  | t :: rest =>
      match parse_step m stack t with
      | Some (m', stack') => assemble m' stack' rest
      | None => Throws (SyntaxError "Unexpected token in JSON")
      end
  end.

(** JSON.parse(text). *)
Definition parse (text : string) : completion json :=
  match lex LStart (Str.chars text) with
  | Some ts => assemble MValue [] ts
  | None => Throws (SyntaxError "Unexpected token in JSON")
  end.

End JSON.

(** ** btoa *)

Module Base64.

Definition alphabet : list ascii :=
  Str.chars "ABCDEFGHIJKLMNOPQRSTUVWXYZabcdefghijklmnopqrstuvwxyz0123456789+/".

Definition digit (n : Z) : ascii := nth (Z.to_nat n) alphabet "="%char.

Fixpoint encode (bytes : list Z) : list ascii :=
  match bytes with
  | [] => []
  | [a] => [digit (a / 4); digit (a mod 4 * 16); "="%char; "="%char]
  | [a; b] =>
      [digit (a / 4); digit (a mod 4 * 16 + b / 16); digit (b mod 16 * 4); "="%char]
  | a :: b :: c :: rest =>
      digit (a / 4) :: digit (a mod 4 * 16 + b / 16)
      :: digit (b mod 16 * 4 + c / 64) :: digit (c mod 64) :: encode rest
  end.

End Base64.

(** [btoa(s)]: the base64 text of the code units of [s] taken for bytes;
    a code unit above 255 makes it throw a DOMException. *)
Definition btoa (s : string) : completion string :=
  match Str.latin1 (Str.chars s) with
  | Some bytes => Normal (Str.of_chars (Base64.encode bytes))
  | None => Throws (mk_error "InvalidCharacterError" "Invalid character")
  end.

(** ** Effects: the outbound call and the console *)

Record fetch_request := {
  url : string;
  method : string;
  req_headers : list (string * string);
  req_body : option string
}.

(** What the handler reads of a Response: [ok], and the body as
    [response.text()] delivers it ([Throws] when reading the body fails). *)
Record upstream_response := {
  ok : bool;
  payload : completion string
}.

(** The settlement of the promise [fetch] returns: a response of any
    status, or a rejection. *)
Definition settlement : Type := completion upstream_response.

Inductive io (A : Type) : Type :=
| Return (a : A)
| Throw (e : js_error)
| Fetch (req : fetch_request) (k : settlement -> io A)
| ConsoleError (label : string) (e : js_error) (k : io A).
Arguments Return {A} a.
Arguments Throw {A} e.
Arguments Fetch {A} req k.
Arguments ConsoleError {A} label e k.

Fixpoint io_bind {A B : Type} (f : A -> io B) (m : io A) : io B :=
  match m with
  | Return a => f a
  | Throw e => Throw e
  | Fetch req k => Fetch req (fun r => io_bind f (k r))
  | ConsoleError l e k => ConsoleError l e (io_bind f k)
  end.

#[export] Instance io_mret : MRet io := @Return.
#[export] Instance io_mbind : MBind io := @io_bind.

(** [try { m } catch (err) { h err }] *)
Fixpoint try_catch {A : Type} (m : io A) (h : js_error -> io A) : io A :=
  match m with
  | Return a => Return a
  | Throw e => h e
  | Fetch req k => Fetch req (fun r => try_catch (k r) h)
  | ConsoleError l e k => ConsoleError l e (try_catch k h)
  end.

Definition eval {A : Type} (c : completion A) : io A :=
  match c with
  | Normal a => Return a
  | Throws e => Throw e
  end.

(** [await fetch(...)]: a rejected promise throws at the [await]. *)
Definition fetch (req : fetch_request) : io upstream_response :=
  Fetch req eval.

(** [await response.text()] and [await response.json()]. *)
Definition text (r : upstream_response) : io string := eval (payload r).

Definition json_of (r : upstream_response) : io json :=
  t ← text r; eval (JSON.parse t).

Inductive effect : Type :=
| Fetched (req : fetch_request)
| Logged (label : string) (e : js_error).

(** One invocation against an upstream: the completion, and the effects in
    the order in which they happened. *)
Fixpoint run {A : Type} (upstream : fetch_request -> settlement) (m : io A)
  : completion A * list effect :=
  match m with
  | Return a => (Normal a, [])
  | Throw e => (Throws e, [])
  | Fetch req k =>
      let '(c, fx) := run upstream (k (upstream req)) in (c, Fetched req :: fx)
  | ConsoleError l e k =>
      let '(c, fx) := run upstream k in (c, Logged l e :: fx)
  end.

(** The outbound calls among the effects. *)
Fixpoint outbound (fx : list effect) : list fetch_request :=
  match fx with
  | [] => []
  | Fetched req :: rest => req :: outbound rest
  | Logged _ _ :: rest => outbound rest
  end.

(** ** The handler *)

Module Event.
Record t := {
  httpMethod : string;
  headers : gmap string string;
  body : option string
}.
End Event.

Module Response.
Record t := {
  statusCode : Z;
  headers : option (list (string * string));
  body : string
}.
End Response.

(** [btoa(key + ':')] does not throw. *)
Definition accepted_key (key : option string) : bool :=
  match btoa (ToString_env key +:+ ":") with
  | Normal _ => true
  | Throws _ => false
  end.

(** [process.env]: a variable that is not set reads as [undefined]. *)
Record process_env := {
  SEATSIO_SECRET_KEY : option string;
  SEATSIO_EVENT_KEY : option string;
  GHL_WEBHOOK_SECRET : option string
}.

(** A configuration whose secret key [btoa] accepts: every code unit of
    the key is below 256.  These are the configurations under which the
    handler reaches the upstream. *)
Record env := {
  vars :> process_env;
  key_accepted : accepted_key (SEATSIO_SECRET_KEY vars) = true
}.

Definition corsHeaders : list (string * string) :=
  [ ("Access-Control-Allow-Origin", "*");
    ("Access-Control-Allow-Headers", "Content-Type, Authorization");
    ("Access-Control-Allow-Methods", "POST, OPTIONS") ].

(** [s || d] on a string that may be [null]: the empty string is falsy. *)
Definition or_default (s : option string) (d : string) : string :=
  match s with
  | Some s' => if String.eqb s' "" then d else s'
  | None => d
  end.

(** [v === s] for a string literal [s]. *)
Definition is_string (v : option json) (s : string) : bool :=
  match v with
  | Some (JString s') => String.eqb s' s
  | _ => false
  end.

(** ToString of a value that may be [undefined], and the same value as an
    array element under JSON.stringify. *)
Definition ToString_value (v : option json) : completion string :=
  match v with
  | Some v' => ToString v'
  | None => Normal "undefined"
  end.

Definition element (v : option json) : json :=
  match v with
  | Some v' => v'
  | None => JNull
  end.

(** [`Basic ${btoa(SEATSIO_SECRET_KEY + ':')}`], for a key that [btoa]
    accepts: what [btoa] returns, after [Basic ]. *)
Definition basic_credentials (e : env) : string :=
  "Basic " +:+
  match btoa (ToString_env (SEATSIO_SECRET_KEY e) +:+ ":") as b
        return (match b with Normal _ => true | Throws _ => false end = true -> string)
  with
  | Normal credentials => fun _ => credentials
  | Throws _ => fun refused => match Bool.diff_false_true refused with end
  end (key_accepted e).

(** [`Bearer ${GHL_WEBHOOK_SECRET}`] *)
Definition bearer (e : process_env) : string :=
  "Bearer " +:+ ToString_env (GHL_WEBHOOK_SECRET e).

(** The two calls, given the value of the Authorization header. *)
Definition hold_token_request (authorization : string) : fetch_request :=
  {| url := "https://api.seats.io/hold-tokens";
     method := "POST";
     req_headers := [("Authorization", authorization)];
     req_body := None |}.

Definition book_request (e : process_env) (authorization : string)
           (seatId holdToken : option json) : fetch_request :=
  {| url := "https://api.seats.io/events/" +:+ ToString_env (SEATSIO_EVENT_KEY e)
            +:+ "/actions/book";
     method := "POST";
     req_headers := [("Content-Type", "application/json");
                     ("Authorization", authorization)];
     req_body := Some (JSON.stringify_literal
                         [("objects", Some (JArray [element seatId]));
                          ("holdToken", holdToken)]) |}.

Definition hold_token_call (e : env) : fetch_request :=
  hold_token_request (basic_credentials e).

Definition book_call (e : env) (seatId holdToken : option json) : fetch_request :=
  book_request e (basic_credentials e) seatId holdToken.

Definition preflight_response : Response.t :=
  {| Response.statusCode := 204;
     Response.headers := Some corsHeaders;
     Response.body := "" |}.

Definition unauthorized_response : Response.t :=
  {| Response.statusCode := 401;
     Response.headers := None;
     Response.body := "Unauthorized" |}.

Definition hold_token_response (e : process_env) (holdToken : option json) : Response.t :=
  {| Response.statusCode := 200;
     Response.headers := Some corsHeaders;
     Response.body := JSON.stringify_literal
                        [("holdToken", holdToken);
                         ("eventKey", JString <$> SEATSIO_EVENT_KEY e)] |}.

(** The acknowledgement, [seat] being the seat identifier as a string. *)
Definition booked_response (seat : string) : Response.t :=
  {| Response.statusCode := 200;
     Response.headers := Some corsHeaders;
     Response.body := JSON.stringify_literal
                        [("success", Some (JBool true));
                         ("message", Some (JString ("Seat " +:+ seat
                                                    +:+ " booked successfully.")))] |}.

Definition error_response (err : js_error) : Response.t :=
  {| Response.statusCode := 500;
     Response.headers := Some corsHeaders;
     Response.body := JSON.stringify_literal
                        [("error", Some (JString (err_message err)))] |}.

(** The body of the [try] block.  Each of the two [if] blocks of the source
    leaves the function on every path, so they chain as [else if].  The
    arguments of [fetch] are evaluated before the call, [btoa] among them;
    the template literal of the acknowledgement is evaluated after it. *)
Definition dispatch (e : process_env) (event : Event.t) : io Response.t :=
  body ← eval (JSON.parse (or_default (Event.body event) "{}"));
  action ← eval (get_prop body "action");
  if is_string action "createHoldToken" then
    credentials ← eval (btoa (ToString_env (SEATSIO_SECRET_KEY e) +:+ ":"));
    response ← fetch (hold_token_request ("Basic " +:+ credentials));
    if negb (ok response) then
      t ← text response;
      Throw (Error ("seats.io API error: " +:+ t))
    else
      parsed ← json_of response;
      holdToken ← eval (destructure parsed "holdToken");
      Return (hold_token_response e holdToken)
  else if is_string action "bookSeat" then
    let authHeader := Event.headers event !! "authorization" in
    if negb (bool_decide (authHeader = Some (bearer e))) then
      Return unauthorized_response
    else
      seatId ← eval (destructure body "seatId");
      holdToken ← eval (destructure body "holdToken");
      if negb (ToBoolean seatId) || negb (ToBoolean holdToken) then
        Throw (Error "Missing required parameters: seatId or holdToken.")
      else
        credentials ← eval (btoa (ToString_env (SEATSIO_SECRET_KEY e) +:+ ":"));
        bookResponse ← fetch (book_request e ("Basic " +:+ credentials) seatId holdToken);
        if negb (ok bookResponse) then
          t ← text bookResponse;
          Throw (Error ("seats.io API error during booking: " +:+ t))
        else
          seat ← eval (ToString_value seatId);
          Return (booked_response seat)
  else
    Throw (Error "Invalid action specified in request body.").

Definition handler (e : process_env) (event : Event.t) : io Response.t :=
  if String.eqb (Event.httpMethod event) "OPTIONS" then
    Return preflight_response
  else
    try_catch (dispatch e event)
      (fun err => ConsoleError "Function Error:" err (Return (error_response err))).

(** What the first line of the [try] block makes of the request body. *)
Definition request_body (event : Event.t) : completion json :=
  JSON.parse (or_default (Event.body event) "{}").

(** The request carries the bearer credential the handler compares with. *)
Definition authorized (e : process_env) (event : Event.t) : Prop :=
  Event.headers event !! "authorization" = Some (bearer e).

(** The values of a body field that the booking branch treats like an
    absent field. *)
Definition falsy (v : json) : Prop :=
  v = JString "" \/ v = JNumber (S754_zero false) \/ v = JNumber (S754_zero true)
  \/ v = JBool false \/ v = JNull.

(** The secrets that are configured, and whether one of them occurs in the
    body of a response. *)
Definition configured (e : env) : list string :=
  omap id [SEATSIO_SECRET_KEY e; SEATSIO_EVENT_KEY e; GHL_WEBHOOK_SECRET e].

Definition echoes_a_secret (e : env) (r : Response.t) : bool :=
  existsb (fun s => Str.contains s (Response.body r)) (configured e).

(** No response body holds any of the three secrets. *)
Definition secrets_never_echoed : Prop :=
  forall (e : env) (event : Event.t) (upstream : fetch_request -> settlement)
         (resp : Response.t) (fx : list effect),
    run upstream (handler e event) = (Normal resp, fx) ->
    echoes_a_secret e resp = false.


Definition with_secret_key (e : process_env) (k : option string) : process_env :=
  {| SEATSIO_SECRET_KEY := k;
     SEATSIO_EVENT_KEY := SEATSIO_EVENT_KEY e;
     GHL_WEBHOOK_SECRET := GHL_WEBHOOK_SECRET e |}.

Definition with_event_key (e : process_env) (k : option string) : process_env :=
  {| SEATSIO_SECRET_KEY := SEATSIO_SECRET_KEY e;
     SEATSIO_EVENT_KEY := k;
     GHL_WEBHOOK_SECRET := GHL_WEBHOOK_SECRET e |}.

Definition with_webhook_secret (e : process_env) (k : option string) : process_env :=
  {| SEATSIO_SECRET_KEY := SEATSIO_SECRET_KEY e;
     SEATSIO_EVENT_KEY := SEATSIO_EVENT_KEY e;
     GHL_WEBHOOK_SECRET := k |}.

(** Two computations that answer alike up to [R]: whatever the upstream
    settles their calls with, they write the same lines to the console,
    throw the same errors and return values related by [R].  The calls
    themselves may differ. *)
Fixpoint answers_alike {A : Type} (R : A -> A -> Prop) (m1 m2 : io A) : Prop :=
  match m1, m2 with
  | Return a1, Return a2 => R a1 a2
  | Throw e1, Throw e2 => e1 = e2
  | Fetch _ k1, Fetch _ k2 => forall s : settlement, answers_alike R (k1 s) (k2 s)
  | ConsoleError l1 e1 k1, ConsoleError l2 e2 k2 =>
      l1 = l2 /\ e1 = e2 /\ answers_alike R k1 k2
  | _, _ => False
  end.

(** Two responses that are the same, or are the two 200 responses of
    createHoldToken for one token and two event identifiers. *)
Definition same_but_eventKey (k1 k2 : option string) (r1 r2 : Response.t) : Prop :=
  r1 = r2
  \/ exists holdToken : option json,
       r1 = {| Response.statusCode := 200;
               Response.headers := Some corsHeaders;
               Response.body := JSON.stringify_literal
                                  [("holdToken", holdToken);
                                   ("eventKey", JString <$> k1)] |}
       /\ r2 = {| Response.statusCode := 200;
                  Response.headers := Some corsHeaders;
                  Response.body := JSON.stringify_literal
                                     [("holdToken", holdToken);
                                      ("eventKey", JString <$> k2)] |}.

(** A bookSeat request whose bearer credential is absent or different. *)
Definition unauthorized_bookSeat (e : process_env) (event : Event.t) : Prop :=
  exists props,
    request_body event = Normal (JObject props)
    /\ Obj.get props "action" = Some (JString "bookSeat")
    /\ ~ authorized e event.

#[export] Instance authorized_dec (e : process_env) (event : Event.t) :
  Decision (authorized e event).
Proof. unfold authorized. apply _. Defined.

(** What each branch makes of the settlement of its call, and what the
    [catch] block makes of a completion of the [try] block after the
    effects [pre]. *)
Definition hold_token_outcome (e : env) (s : settlement) : completion Response.t :=
  match s with
  | Throws err => Throws err
  | Normal r =>
      match payload r with
      | Throws err => Throws err
      | Normal t =>
          if ok r then
            match JSON.parse t with
            | Throws err => Throws err
            | Normal parsed =>
                match destructure parsed "holdToken" with
                | Throws err => Throws err
                | Normal holdToken => Normal (hold_token_response e holdToken)
                end
            end
          else Throws (Error ("seats.io API error: " +:+ t))
      end
  end.

Definition booking_outcome (seatId : option json) (s : settlement)
  : completion Response.t :=
  match s with
  | Throws err => Throws err
  | Normal r =>
      if ok r then
        match ToString_value seatId with
        | Normal seat => Normal (booked_response seat)
        | Throws err => Throws err
        end
      else match payload r with
           | Normal t => Throws (Error ("seats.io API error during booking: " +:+ t))
           | Throws err => Throws err
           end
  end.

Definition caught (c : completion Response.t) (pre : list effect)
  : completion Response.t * list effect :=
  match c with
  | Normal r => (Normal r, pre)
  | Throws err => (Normal (error_response err), pre ++ [Logged "Function Error:" err])
  end.

(** The request asks for a hold token; the request books, with the right
    credential and two truthy parameters. *)
Definition asks_hold_token (event : Event.t) : Prop :=
  exists body,
    request_body event = Normal body
    /\ get_prop body "action" = Normal (Some (JString "createHoldToken")).

Definition books (e : process_env) (event : Event.t) (props : list (string * json))
  : Prop :=
  request_body event = Normal (JObject props)
  /\ Obj.get props "action" = Some (JString "bookSeat")
  /\ authorized e event
  /\ ToBoolean (Obj.get props "seatId") = true
  /\ ToBoolean (Obj.get props "holdToken") = true.

(** ** Sample requests, configuration and upstreams *)

Module Sample.

Definition config : env :=
  {| vars := {| SEATSIO_SECRET_KEY := Some "sk-demo";
               SEATSIO_EVENT_KEY := Some "evt-2024";
               GHL_WEBHOOK_SECRET := Some "whsec" |};
     key_accepted := eq_refl |}.


Definition no_secret_key : env :=
  {| vars := with_secret_key config None; key_accepted := eq_refl |}.

(** A key with a code unit above 255, which [btoa] refuses. *)
Definition wide_key : process_env :=
  {| SEATSIO_SECRET_KEY := Some ("sk-" +:+ Str.of_chars (Str.unit 8364));
     SEATSIO_EVENT_KEY := Some "evt-2024";
     GHL_WEBHOOK_SECRET := Some "whsec" |}.

Definition request (m : string) (hs : gmap string string) (b : option string)
  : Event.t :=
  {| Event.httpMethod := m; Event.headers := hs; Event.body := b |}.

Definition signed : gmap string string := {[ "authorization" := "Bearer whsec" ]}.
Definition forged : gmap string string := {[ "authorization" := "bearer whsec" ]}.

Definition book_fields : list (string * json) :=
  [("action", JString "bookSeat"); ("seatId", JString "A-12");
   ("holdToken", JString "tok-1")].

Definition book_text : string :=
  Str.dq "{'action':'bookSeat','seatId':'A-12','holdToken':'tok-1'}".

Definition no_seat_text : string := Str.dq "{'action':'bookSeat','holdToken':'tok-1'}".
Definition zero_seat_text : string :=
  Str.dq "{'action':'bookSeat','seatId':0,'holdToken':'tok-1'}".
Definition object_seat_text : string :=
  Str.dq "{'action':'bookSeat','seatId':{'toString':1},'holdToken':'tok-1'}".
Definition huge_seat_text : string :=
  Str.dq "{'action':'bookSeat','seatId':1e999,'holdToken':'tok-1'}".
Definition hold_text : string := Str.dq "{'action':'createHoldToken'}".
Definition cancel_text : string := Str.dq "{'action':'cancelSeat'}".
Definition broken_text : string := Str.dq "{'action':".

(** An upstream that accepts every call and issues the token [tok-1]. *)
Definition accepting (_ : fetch_request) : settlement :=
  Normal {| ok := true; payload := Normal (Str.dq "{'holdToken':'tok-1'}") |}.

(** An upstream that refuses every call. *)
Definition refusing (_ : fetch_request) : settlement :=
  Normal {| ok := false; payload := Normal "seat taken" |}.

End Sample.

(** * Properties *)

(** ** The built-in functions on examples *)

Example toString_examples :
  List.map (fun dx => Number.toString (Number.of_decimal false (fst dx) (snd dx)))
           [(1, 0); (15, -1); (100, 0); (1, 21); (1, -7); (1, -6);
            (123456789012345678, 0); (5, -324); (2, 308)]
  = ["1"; "1.5"; "100"; "1e+21"; "1e-7"; "0.000001";
     "123456789012345680"; "5e-324"; "Infinity"].
Proof. vm_compute. reflexivity. Qed.

Example zero_is_falsy :
  List.map (fun t => match JSON.parse t with
                     | Normal v => ToBoolean (Some v)
                     | Throws _ => true
                     end)
           ["0"; "-0"; "0.0"; "0e5"; "1e-400"; "false"; "null"; Str.dq "''";
            "1"; "[]"; "{}"; Str.dq "'0'"]
  = [false; false; false; false; false; false; false; false;
     true; true; true; true].
Proof. vm_compute. reflexivity. Qed.

Example parse_book_text :
  JSON.parse Sample.book_text = Normal (JObject Sample.book_fields).
Proof. vm_compute. reflexivity. Qed.

Example parse_keeps_last_duplicate :
  JSON.parse (Str.dq "{'b':1,'seatId':'A','1':[true,null],'seatId':'B'}")
  = Normal (JObject [("1", JArray [JBool true; JNull]);
                     ("b", JNumber (Number.of_decimal false 1 0));
                     ("seatId", JString "B")]).
Proof. vm_compute. reflexivity. Qed.

Example parse_rejects :
  List.map (fun t => match JSON.parse (Str.dq t) with
                     | Normal _ => true
                     | Throws _ => false
                     end)
           [""; "{'a':1,}"; "[1,]"; "01"; "1."; ".5"; "+1"; "tru"; "{'a' 1}";
            "1 2"; "'abc"; "{a:1}"; "[1"; "nulll"]
  = [false; false; false; false; false; false; false; false; false;
     false; false; false; false; false].
Proof. vm_compute. reflexivity. Qed.

Example stringify_escapes :
  JSON.stringify (JString (Str.of_chars [Str.of_code 34; Str.of_code 92;
                                         Str.of_code 10; Str.of_code 1; "/"%char]))
  = Str.of_chars ([Str.of_code 34] ++ Str.chars "\" ++ [Str.of_code 34]
                  ++ Str.chars "\\\n\u0001/" ++ [Str.of_code 34]).
Proof. vm_compute. reflexivity. Qed.

(** An escape gives the code unit it names, whatever it is; a surrogate
    that is not half of a pair is written back as an escape, a pair and
    every other code unit as they are. *)
Example escapes_are_code_units :
  List.map (fun t => JSON.parse (Str.dq t))
           ["'A\u00e9\u0100\u20ac'"; "'\ud83d\ude00'"; "'\ude00'"]
  = [Normal (JString (Str.of_chars (Str.unit 65 ++ Str.unit 233
                                    ++ Str.unit 256 ++ Str.unit 8364)));
     Normal (JString (Str.of_chars (Str.unit 55357 ++ Str.unit 56832)));
     Normal (JString (Str.of_chars (Str.unit 56832)))].
Proof. vm_compute. reflexivity. Qed.

Example stringify_surrogates :
  List.map (fun l => JSON.stringify (JString (Str.of_chars (List.concat (List.map Str.unit l)))))
           [[55357; 56832]; [56832; 55357]; [55357; 65]; [256; 8364]]
  = [Str.of_chars ([Str.of_code 34] ++ Str.unit 55357 ++ Str.unit 56832 ++ [Str.of_code 34]);
     Str.dq "'\ude00\ud83d'";
     Str.dq "'\ud83dA'";
     Str.of_chars ([Str.of_code 34] ++ Str.unit 256 ++ Str.unit 8364 ++ [Str.of_code 34])].
Proof. vm_compute. reflexivity. Qed.

Example parse_messages :
  List.map (fun t => match JSON.parse (Str.dq t) with
                     | Normal _ => ""
                     | Throws err => err_message err
                     end)
           [""; " "; "{'action':"; "[1,"; "["]
  = ["Unexpected end of JSON input"; "Unexpected end of JSON input";
     "Unexpected end of JSON input"; "Unexpected end of JSON input";
     "Unexpected end of JSON input"].
Proof. vm_compute. reflexivity. Qed.

Example ToString_of_an_array :
  ToString (JArray [JNumber (Number.of_decimal false 1 0); JNull;
                    JArray [JString "a"; JBool false]; JObject []])
  = Normal "1,,a,false,[object Object]".
Proof. vm_compute. reflexivity. Qed.

Example ToString_of_an_object_with_toString :
  List.map (fun t => match JSON.parse (Str.dq t) with
                     | Normal v => ToString v
                     | Throws err => Throws err
                     end)
           ["{'toString':1}"; "[1,[{'toString':null}]]"; "{'valueOf':1}"]
  = [Throws (TypeError "Cannot convert object to primitive value");
     Throws (TypeError "Cannot convert object to primitive value");
     Normal "[object Object]"].
Proof. vm_compute. reflexivity. Qed.

Example btoa_examples :
  (btoa "sk-demo:", btoa "undefined:", btoa "", btoa "a", btoa "ab")
  = (Normal "c2stZGVtbzo=", Normal "dW5kZWZpbmVkOg==", Normal "", Normal "YQ==",
     Normal "YWI=").
Proof. vm_compute. reflexivity. Qed.

Example btoa_of_other_code_units :
  List.map (fun l => btoa (Str.of_chars (List.concat (List.map Str.unit l))))
           [[233]; [255; 0]; [256]; [8364]]
  = [Normal "6Q=="; Normal "/wA=";
     Throws (mk_error "InvalidCharacterError" "Invalid character");
     Throws (mk_error "InvalidCharacterError" "Invalid character")].
Proof. vm_compute. reflexivity. Qed.

Example corsHeaders_are :
  corsHeaders
  = [("Access-Control-Allow-Origin", "*");
     ("Access-Control-Allow-Headers", "Content-Type, Authorization");
     ("Access-Control-Allow-Methods", "POST, OPTIONS")].
Proof. reflexivity. Qed.

Example book_call_example :
  book_call Sample.config (Some (JString "A-12")) (Some (JString "tok-1"))
  = {| url := "https://api.seats.io/events/evt-2024/actions/book";
       method := "POST";
       req_headers := [("Content-Type", "application/json");
                       ("Authorization", "Basic c2stZGVtbzo=")];
       req_body := Some (Str.dq "{'objects':['A-12'],'holdToken':'tok-1'}") |}.
Proof. vm_compute. reflexivity. Qed.

(** A seat that is an object with a property [toString] is booked, and the
    caller is answered 500. *)
Example booking_an_object_seat :
  run Sample.accepting
      (handler Sample.config
               (Sample.request "POST" Sample.signed (Some Sample.object_seat_text)))
  = (Normal {| Response.statusCode := 500;
               Response.headers := Some corsHeaders;
               Response.body :=
                 Str.dq "{'error':'Cannot convert object to primitive value'}" |},
     [Fetched
        {| url := "https://api.seats.io/events/evt-2024/actions/book";
           method := "POST";
           req_headers := [("Content-Type", "application/json");
                           ("Authorization", "Basic c2stZGVtbzo=")];
           req_body := Some (Str.dq "{'objects':[{'toString':1}],'holdToken':'tok-1'}") |};
      Logged "Function Error:" (TypeError "Cannot convert object to primitive value")]).
Proof. vm_compute. reflexivity. Qed.

(** A number beyond the range of a double is read as Infinity, sent as
    [null] and acknowledged as Infinity. *)
Example booking_a_huge_seat :
  run Sample.accepting
      (handler Sample.config
               (Sample.request "POST" Sample.signed (Some Sample.huge_seat_text)))
  = (Normal {| Response.statusCode := 200;
               Response.headers := Some corsHeaders;
               Response.body :=
                 Str.dq "{'success':true,'message':'Seat Infinity booked successfully.'}" |},
     [Fetched
        {| url := "https://api.seats.io/events/evt-2024/actions/book";
           method := "POST";
           req_headers := [("Content-Type", "application/json");
                           ("Authorization", "Basic c2stZGVtbzo=")];
           req_body := Some (Str.dq "{'objects':[null],'holdToken':'tok-1'}") |}]).
Proof. vm_compute. reflexivity. Qed.

(** With a secret key that [btoa] refuses no call is made. *)
Example a_key_btoa_refuses :
  run Sample.accepting
      (handler Sample.wide_key (Sample.request "POST" ∅ (Some Sample.hold_text)))
  = (Normal {| Response.statusCode := 500;
               Response.headers := Some corsHeaders;
               Response.body := Str.dq "{'error':'Invalid character'}" |},
     [Logged "Function Error:" (mk_error "InvalidCharacterError" "Invalid character")]).
Proof. vm_compute. reflexivity. Qed.

Arguments JSON.stringify_literal : simpl never.
Arguments JSON.parse : simpl never.
Arguments btoa : simpl never.
Arguments String.append : simpl never.
Arguments String.eqb : simpl never.

(** ** Running a computation *)

Lemma run_bind {A B : Type} (upstream : fetch_request -> settlement)
      (m : io A) (f : A -> io B) :
  run upstream (io_bind f m) =
  match run upstream m with
  | (Normal a, fx) => let '(c, fx') := run upstream (f a) in (c, fx ++ fx')
  | (Throws e, fx) => (Throws e, fx)
  end.
Proof.
  induction m as [a | e | req k IH | l e k IH]; simpl.
  - destruct (run upstream (f a)); reflexivity.
  - reflexivity.
  - rewrite IH.
    destruct (run upstream (k (upstream req))) as [[a | e] fx]; [ | reflexivity ].
    destruct (run upstream (f a)); reflexivity.
  - rewrite IH.
    destruct (run upstream k) as [[a | e'] fx]; [ | reflexivity ].
    destruct (run upstream (f a)); reflexivity.
Qed.

Lemma run_try_catch {A : Type} (upstream : fetch_request -> settlement)
      (m : io A) (h : js_error -> io A) :
  run upstream (try_catch m h) =
  match run upstream m with
  | (Normal a, fx) => (Normal a, fx)
  | (Throws e, fx) => let '(c, fx') := run upstream (h e) in (c, fx ++ fx')
  end.
Proof.
  induction m as [a | e | req k IH | l e k IH]; simpl.
  - reflexivity.
  - destruct (run upstream (h e)); reflexivity.
  - rewrite IH.
    destruct (run upstream (k (upstream req))) as [[a | e] fx]; [ reflexivity | ].
    destruct (run upstream (h e)); reflexivity.
  - rewrite IH.
    destruct (run upstream k) as [[a | e'] fx]; [ reflexivity | ].
    destruct (run upstream (h e')); reflexivity.
Qed.

(** The [catch] block turns what [dispatch] throws into the 500 response,
    after one line on the console; what [dispatch] returns goes through. *)
Lemma run_handler (e : process_env) (event : Event.t)
      (upstream : fetch_request -> settlement) :
  Event.httpMethod event ≠ "OPTIONS" ->
  run upstream (handler e event) =
  match run upstream (dispatch e event) with
  | (Normal r, fx) => (Normal r, fx)
  | (Throws err, fx) =>
      (Normal (error_response err), fx ++ [Logged "Function Error:" err])
  end.
Proof.
  intros Hm. unfold handler.
  destruct (String.eqb_spec (Event.httpMethod event) "OPTIONS") as [Heq | _];
    [ contradiction | ].
  rewrite run_try_catch.
  destruct (run upstream (dispatch e event)) as [[r | err] fx]; reflexivity.
Qed.

(** The key of the configuration is one [btoa] accepts. *)
Lemma btoa_key (e : env) :
  exists credentials,
    btoa (ToString_env (SEATSIO_SECRET_KEY e) +:+ ":") = Normal credentials
    /\ basic_credentials e = "Basic " +:+ credentials.
Proof.
  unfold basic_credentials. generalize (key_accepted e). unfold accepted_key.
  destruct (btoa (ToString_env (SEATSIO_SECRET_KEY e) +:+ ":")) as [c | err];
    intros H; [ eauto | discriminate ].
Qed.

(** [btoa] throws one error only. *)
Lemma btoa_throws (s : string) (err : js_error) :
  btoa s = Throws err -> err = mk_error "InvalidCharacterError" "Invalid character".
Proof.
  unfold btoa. destruct (Str.latin1 (Str.chars s)); [ discriminate | ].
  intros H. injection H as <-. reflexivity.
Qed.

Lemma btoa_refused (key : option string) :
  accepted_key key = false ->
  btoa (ToString_env key +:+ ":")
  = Throws (mk_error "InvalidCharacterError" "Invalid character").
Proof.
  unfold accepted_key.
  destruct (btoa (ToString_env key +:+ ":")) as [c | err] eqn:Hb; [ discriminate | ].
  intros _. rewrite (btoa_throws _ _ Hb). reflexivity.
Qed.

(** ** The paths through [dispatch] *)

Section Dispatch.

Variable e : process_env.
Variable event : Event.t.

Lemma dispatch_unparsable (err : js_error) :
  request_body event = Throws err ->
  dispatch e event = Throw err.
Proof. unfold request_body, dispatch. intros ->. reflexivity. Qed.

Lemma dispatch_action_throws (body : json) (err : js_error) :
  request_body event = Normal body ->
  get_prop body "action" = Throws err ->
  dispatch e event = Throw err.
Proof. unfold request_body, dispatch. intros -> Ha. simpl. rewrite Ha. reflexivity. Qed.

Lemma dispatch_invalid_action (body : json) (action : option json) :
  request_body event = Normal body ->
  get_prop body "action" = Normal action ->
  is_string action "createHoldToken" = false ->
  is_string action "bookSeat" = false ->
  dispatch e event = Throw (Error "Invalid action specified in request body.").
Proof.
  unfold request_body, dispatch. intros -> Ha Hc Hb. simpl.
  rewrite Ha. simpl. rewrite Hc, Hb. reflexivity.
Qed.

Section BookSeat.

Variable props : list (string * json).
Hypothesis Hbody : request_body event = Normal (JObject props).
Hypothesis Haction : Obj.get props "action" = Some (JString "bookSeat").

Lemma dispatch_unauthorized :
  ~ authorized e event ->
  dispatch e event = Return unauthorized_response.
Proof.
  unfold authorized. intros Hh. revert Hbody. unfold request_body, dispatch.
  intros ->. simpl. rewrite Haction. simpl.
  rewrite bool_decide_eq_false_2 by exact Hh. reflexivity.
Qed.

Lemma dispatch_missing_parameters :
  authorized e event ->
  ToBoolean (Obj.get props "seatId") && ToBoolean (Obj.get props "holdToken") = false ->
  dispatch e event = Throw (Error "Missing required parameters: seatId or holdToken.").
Proof.
  unfold authorized. intros Hh Hf. revert Hbody. unfold request_body, dispatch.
  intros ->. simpl. rewrite Haction. simpl.
  rewrite bool_decide_eq_true_2 by exact Hh. simpl.
  apply andb_false_iff in Hf as [-> | ->]; simpl; [ reflexivity | ].
  rewrite orb_true_r. reflexivity.
Qed.

(** With a key that [btoa] refuses the booking stops at [btoa]. *)
Lemma dispatch_book_refused :
  accepted_key (SEATSIO_SECRET_KEY e) = false ->
  authorized e event ->
  ToBoolean (Obj.get props "seatId") = true ->
  ToBoolean (Obj.get props "holdToken") = true ->
  dispatch e event = Throw (mk_error "InvalidCharacterError" "Invalid character").
Proof.
  unfold authorized. intros Hk Hh Hs Ht. revert Hbody. unfold request_body, dispatch.
  intros ->. simpl. rewrite Haction. simpl.
  rewrite bool_decide_eq_true_2 by exact Hh. simpl.
  rewrite Hs, Ht. simpl. rewrite (btoa_refused _ Hk). reflexivity.
Qed.

End BookSeat.

Lemma dispatch_hold_token_refused (body : json) :
  accepted_key (SEATSIO_SECRET_KEY e) = false ->
  request_body event = Normal body ->
  get_prop body "action" = Normal (Some (JString "createHoldToken")) ->
  dispatch e event = Throw (mk_error "InvalidCharacterError" "Invalid character").
Proof.
  unfold request_body, dispatch. intros Hk -> Ha. simpl. rewrite Ha. simpl.
  rewrite (btoa_refused _ Hk). reflexivity.
Qed.

End Dispatch.

Section Calls.

Variable e : env.
Variable event : Event.t.
Variable upstream : fetch_request -> settlement.

Lemma run_dispatch_book (props : list (string * json)) :
  request_body event = Normal (JObject props) ->
  Obj.get props "action" = Some (JString "bookSeat") ->
  authorized e event ->
  ToBoolean (Obj.get props "seatId") = true ->
  ToBoolean (Obj.get props "holdToken") = true ->
  let seatId := Obj.get props "seatId" in
  let call := book_call e seatId (Obj.get props "holdToken") in
  run upstream (dispatch e event) =
  (booking_outcome seatId (upstream call), [Fetched call]).
Proof.
  unfold authorized, request_body, dispatch. intros -> Haction Hh Hs Ht.
  simpl. rewrite Haction. simpl.
  rewrite bool_decide_eq_true_2 by exact Hh. simpl.
  rewrite Hs, Ht. simpl.
  destruct (btoa_key e) as (c & -> & Hc). simpl.
  unfold book_call. rewrite Hc. unfold booking_outcome.
  destruct (upstream _) as [r | err]; simpl; [ | reflexivity ].
  destruct (ok r); simpl.
  - destruct (ToString_value (Obj.get props "seatId")); reflexivity.
  - unfold text. destruct (payload r); reflexivity.
Qed.

Lemma run_dispatch_hold_token (body : json) :
  request_body event = Normal body ->
  get_prop body "action" = Normal (Some (JString "createHoldToken")) ->
  let call := hold_token_call e in
  run upstream (dispatch e event) =
  (hold_token_outcome e (upstream call), [Fetched call]).
Proof.
  unfold request_body, dispatch. intros -> Ha. simpl. rewrite Ha. simpl.
  destruct (btoa_key e) as (c & -> & Hc). simpl.
  unfold hold_token_call. rewrite Hc. unfold hold_token_outcome.
  destruct (upstream _) as [r | err]; simpl; [ | reflexivity ].
  unfold json_of, text.
  destruct (ok r), (payload r) as [t | err]; simpl; try reflexivity.
  destruct (JSON.parse t) as [parsed | err]; simpl; [ | reflexivity ].
  destruct (destructure parsed "holdToken"); reflexivity.
Qed.

End Calls.

Lemma is_string_true (v : option json) (s : string) :
  is_string v s = true -> v = Some (JString s).
Proof.
  destruct v as [[ | | | s' | | ] | ]; simpl; try discriminate.
  intros H. apply String.eqb_eq in H. subst. reflexivity.
Qed.

Lemma is_string_false (v : option json) (s : string) :
  v ≠ Some (JString s) -> is_string v s = false.
Proof.
  intros H. destruct (is_string v s) eqn:E; [ | reflexivity ].
  apply is_string_true in E. contradiction.
Qed.

Lemma get_prop_some (body : json) (k : string) (v : json) :
  get_prop body k = Normal (Some v) ->
  exists props, body = JObject props /\ Obj.get props k = Some v.
Proof.
  destruct body; simpl; try discriminate.
  intros H. injection H as H. eauto.
Qed.

(** Every request takes one of four ways through [dispatch]: it throws
    before any call, it is turned away as unauthorized, it asks for a hold
    token, or it books; the last two lead to [btoa], then to the call. *)
Lemma dispatch_ways (e : process_env) (event : Event.t) :
  (exists err, dispatch e event = Throw err)
  \/ (dispatch e event = Return unauthorized_response /\ unauthorized_bookSeat e event)
  \/ (exists body,
        request_body event = Normal body
        /\ get_prop body "action" = Normal (Some (JString "createHoldToken")))
  \/ (exists props,
        request_body event = Normal (JObject props)
        /\ Obj.get props "action" = Some (JString "bookSeat")
        /\ authorized e event
        /\ ToBoolean (Obj.get props "seatId") = true
        /\ ToBoolean (Obj.get props "holdToken") = true).
Proof.
  destruct (request_body event) as [body | err] eqn:Hb.
  2: { left. eexists. eapply dispatch_unparsable. eassumption. }
  destruct (get_prop body "action") as [action | err] eqn:Ha.
  2: { left. exists err. eapply dispatch_action_throws; eassumption. }
  destruct (is_string action "createHoldToken") eqn:Hc.
  { apply is_string_true in Hc. subst action. right. right. left. eauto. }
  destruct (is_string action "bookSeat") eqn:Hk.
  2: { left. eexists. eapply dispatch_invalid_action; eassumption. }
  apply is_string_true in Hk. subst action.
  destruct (get_prop_some _ _ _ Ha) as (props & -> & Hg).
  destruct (decide (authorized e event)) as [Hauth | Hauth].
  2: { right. left. split.
       - eapply dispatch_unauthorized; eassumption.
       - exists props. auto. }
  destruct (ToBoolean (Obj.get props "seatId") && ToBoolean (Obj.get props "holdToken"))
    eqn:Ht.
  - apply andb_true_iff in Ht as [Hs Ht]. right. right. right. exists props. auto.
  - left. eexists. eapply dispatch_missing_parameters; eassumption.
Qed.

Lemma dispatch_paths (e : env) (event : Event.t) :
  (exists err, dispatch e event = Throw err)
  \/ (dispatch e event = Return unauthorized_response /\ unauthorized_bookSeat e event)
  \/ (exists body,
        request_body event = Normal body
        /\ get_prop body "action" = Normal (Some (JString "createHoldToken")))
  \/ (exists props,
        request_body event = Normal (JObject props)
        /\ Obj.get props "action" = Some (JString "bookSeat")
        /\ authorized e event
        /\ ToBoolean (Obj.get props "seatId") = true
        /\ ToBoolean (Obj.get props "holdToken") = true).
Proof. apply dispatch_ways. Qed.

(** With a key that [btoa] refuses only the first two ways are left. *)
Lemma dispatch_refused (e : process_env) (event : Event.t) :
  accepted_key (SEATSIO_SECRET_KEY e) = false ->
  (exists err, dispatch e event = Throw err)
  \/ (dispatch e event = Return unauthorized_response /\ unauthorized_bookSeat e event).
Proof.
  intros Hk.
  destruct (dispatch_ways e event)
    as [H | [H | [(body & Hb & Ha) | (props & Hb & Ha & Hauth & Hs & Ht)]]].
  - left. exact H.
  - right. exact H.
  - left. eexists. eapply dispatch_hold_token_refused; eassumption.
  - left. eexists. eapply dispatch_book_refused; eassumption.
Qed.

(** What [dispatch] returns, under every configuration: a response with
    the CORS headers, or the bare 401 of an unauthorized bookSeat. *)
Lemma dispatch_returns (e : process_env) (event : Event.t)
      (upstream : fetch_request -> settlement) (r : Response.t) (fx : list effect) :
  run upstream (dispatch e event) = (Normal r, fx) ->
  Response.headers r = Some corsHeaders
  \/ (r = unauthorized_response /\ unauthorized_bookSeat e event).
Proof.
  intros Hrun.
  destruct (accepted_key (SEATSIO_SECRET_KEY e)) eqn:Hk.
  - change e with (vars {| vars := e; key_accepted := Hk |}) in Hrun.
    set (e' := {| vars := e; key_accepted := Hk |}) in Hrun.
    destruct (dispatch_ways e event)
      as [[err Hd] | [[Hd Hu] | [(body & Hb & Ha) | (props & Hb & Ha & Hauth & Hs & Ht)]]].
    + change (vars e') with e in Hrun. rewrite Hd in Hrun. discriminate.
    + change (vars e') with e in Hrun. rewrite Hd in Hrun.
      injection Hrun as <- _. right. auto.
    + rewrite (run_dispatch_hold_token e' event upstream body Hb Ha) in Hrun.
      left. injection Hrun as Hrun _. unfold hold_token_outcome in Hrun.
      destruct (upstream _) as [u | ?]; [ | discriminate ].
      destruct (payload u) as [t | ?]; [ | discriminate ].
      destruct (ok u); [ | discriminate ].
      destruct (JSON.parse t) as [parsed | ?]; [ | discriminate ].
      destruct (destructure parsed "holdToken"); [ | discriminate ].
      injection Hrun as <-. reflexivity.
    + rewrite (run_dispatch_book e' event upstream props Hb Ha Hauth Hs Ht) in Hrun.
      left. injection Hrun as Hrun _. unfold booking_outcome in Hrun.
      destruct (upstream _) as [u | ?]; [ | discriminate ].
      destruct (ok u).
      * destruct (ToString_value _); [ | discriminate ].
        injection Hrun as <-. reflexivity.
      * destruct (payload u); discriminate.
  - destruct (dispatch_refused e event Hk) as [[err Hd] | [Hd Hu]];
      rewrite Hd in Hrun.
    + discriminate.
    + injection Hrun as <- _. right. auto.
Qed.

(** ** Authorization of bookSeat comes first *)

(** C1.  A bookSeat request that reaches the dispatch (its method is not
    OPTIONS) and whose [authorization] header is absent, or is any string
    other than [Bearer ] followed by the webhook secret, is answered with
    status 401, no headers and the body [Unauthorized]; the invocation
    performs no effect at all, so no outbound call.  Nothing is assumed of
    [seatId] and [holdToken]: the answer is the same whether they are
    present or not. *)
Theorem unauthorized_bookSeat_is_401
        (e : process_env) (event : Event.t) (upstream : fetch_request -> settlement)
        (props : list (string * json)) :
  Event.httpMethod event ≠ "OPTIONS" ->
  request_body event = Normal (JObject props) ->
  Obj.get props "action" = Some (JString "bookSeat") ->
  Event.headers event !! "authorization"
    ≠ Some ("Bearer " +:+ ToString_env (GHL_WEBHOOK_SECRET e)) ->
  run upstream (handler e event) =
  (Normal {| Response.statusCode := 401;
             Response.headers := None;
             Response.body := "Unauthorized" |}, []).
Proof.
  intros Hm Hb Ha Hh.
  rewrite run_handler by exact Hm.
  rewrite (dispatch_unauthorized e event props Hb Ha Hh).
  reflexivity.
Qed.

Lemma unauthorized_bookSeat_is_401_witness :
  run Sample.accepting
      (handler Sample.config
               (Sample.request "POST" Sample.forged (Some Sample.book_text))) =
  (Normal {| Response.statusCode := 401;
             Response.headers := None;
             Response.body := "Unauthorized" |}, []).
Proof.
  apply (unauthorized_bookSeat_is_401 _ _ _ Sample.book_fields).
  - discriminate.
  - vm_compute. reflexivity.
  - reflexivity.
  - vm_compute. discriminate.
Defined.

(** ** Booking *)




(** ** Issuing a hold token *)

(** C3.  A createHoldToken request whose upstream call is answered with a
    success status and a JSON object that has a [holdToken] gets status
    200, the three CORS headers, and as body the JSON text of the object with
    exactly two properties: that [holdToken], as parsed, and [eventKey],
    the configured event identifier. *)
Theorem createHoldToken_returns_the_token
        (e : env) (event : Event.t) (upstream : fetch_request -> settlement)
        (body : json) (r : upstream_response) (t : string)
        (fields : list (string * json)) (holdToken : json) (eventKey : string) :
  Event.httpMethod event ≠ "OPTIONS" ->
  request_body event = Normal body ->
  get_prop body "action" = Normal (Some (JString "createHoldToken")) ->
  SEATSIO_EVENT_KEY e = Some eventKey ->
  upstream (hold_token_call e) = Normal r ->
  ok r = true ->
  payload r = Normal t ->
  JSON.parse t = Normal (JObject fields) ->
  Obj.get fields "holdToken" = Some holdToken ->
  run upstream (handler e event) =
  (Normal {| Response.statusCode := 200;
             Response.headers :=
               Some [("Access-Control-Allow-Origin", "*");
                     ("Access-Control-Allow-Headers", "Content-Type, Authorization");
                     ("Access-Control-Allow-Methods", "POST, OPTIONS")];
             Response.body :=
               JSON.stringify (JObject [("holdToken", holdToken);
                                        ("eventKey", JString eventKey)]) |},
   [Fetched (hold_token_call e)]).
Proof.
  intros Hm Hb Ha He Hr Hok Hp Hj Hg.
  rewrite run_handler by exact Hm.
  rewrite (run_dispatch_hold_token e event upstream body Hb Ha).
  unfold hold_token_outcome. rewrite Hr, Hp, Hok, Hj. simpl. rewrite Hg.
  unfold hold_token_response. rewrite He. reflexivity.
Qed.

Lemma createHoldToken_returns_the_token_witness :
  run Sample.accepting
      (handler Sample.config (Sample.request "POST" ∅ (Some Sample.hold_text))) =
  (Normal {| Response.statusCode := 200;
             Response.headers :=
               Some [("Access-Control-Allow-Origin", "*");
                     ("Access-Control-Allow-Headers", "Content-Type, Authorization");
                     ("Access-Control-Allow-Methods", "POST, OPTIONS")];
             Response.body :=
               JSON.stringify (JObject [("holdToken", JString "tok-1");
                                        ("eventKey", JString "evt-2024")]) |},
   [Fetched (hold_token_call Sample.config)]).
Proof.
  apply (createHoldToken_returns_the_token
           Sample.config _ Sample.accepting
           (JObject [("action", JString "createHoldToken")])
           {| ok := true; payload := Normal (Str.dq "{'holdToken':'tok-1'}") |}
           (Str.dq "{'holdToken':'tok-1'}")
           [("holdToken", JString "tok-1")]).
  - discriminate.
  - vm_compute. reflexivity.
  - reflexivity.
  - reflexivity.
  - reflexivity.
  - reflexivity.
  - reflexivity.
  - vm_compute. reflexivity.
  - reflexivity.
Defined.

(** ** Upstream failures *)

(** C4.  Whichever outbound call the handler makes, the hold-token call or
    the booking call: when the upstream answers it with a non-success
    status, the handler returns status 500 with the CORS headers and the
    JSON text of [{ error: message }].  When the body of the upstream
    response can be read, [message] ends with that body, after the prefix
    of the call that failed.  The effects are that one call and the line
    on the console: the call is not made again. *)
Theorem upstream_failure_is_500
        (e : env) (event : Event.t) (upstream : fetch_request -> settlement)
        (call : fetch_request) (r : upstream_response) :
  In call (outbound (run upstream (handler e event)).2) ->
  upstream call = Normal r ->
  ok r = false ->
  exists err,
    run upstream (handler e event) =
    (Normal {| Response.statusCode := 500;
               Response.headers := Some corsHeaders;
               Response.body :=
                 JSON.stringify (JObject [("error", JString (err_message err))]) |},
     [Fetched call; Logged "Function Error:" err])
    /\ forall t,
         payload r = Normal t ->
         (call = hold_token_call e
          /\ err_message err = "seats.io API error: " +:+ t)
         \/ (url call = "https://api.seats.io/events/"
                        +:+ ToString_env (SEATSIO_EVENT_KEY e) +:+ "/actions/book"
             /\ err_message err = "seats.io API error during booking: " +:+ t).
Proof.
  intros Hin Hup Hok.
  destruct (String.eqb_spec (Event.httpMethod event) "OPTIONS") as [Hm | Hm].
  { unfold handler in Hin. rewrite Hm in Hin. contradiction. }
  rewrite run_handler in * by exact Hm.
  destruct (dispatch_paths e event)
    as [[err Hd] | [[Hd _] | [(body & Hb & Ha) | (props & Hb & Ha & Hauth & Hs & Ht)]]].
  - rewrite Hd in Hin. contradiction.
  - rewrite Hd in Hin. contradiction.
  - rewrite (run_dispatch_hold_token e event upstream body Hb Ha) in *.
    assert (Hc : call = hold_token_call e).
    { destruct (hold_token_outcome e (upstream (hold_token_call e)));
        simpl in Hin; destruct Hin as [Hin | Hin]; congruence || contradiction. }
    subst call. unfold hold_token_outcome. rewrite Hup, Hok.
    destruct (payload r) as [t | err].
    + eexists. split; [ reflexivity | ].
      intros t' Ht'. injection Ht' as <-. left. split; reflexivity.
    + exists err. split; [ reflexivity | ]. intros t' Ht'. discriminate.
  - rewrite (run_dispatch_book e event upstream props Hb Ha Hauth Hs Ht) in *.
    cbv zeta in *.
    assert (Hc : call = book_call e (Obj.get props "seatId") (Obj.get props "holdToken")).
    { destruct (booking_outcome _ (upstream (book_call e _ _)));
        simpl in Hin; destruct Hin as [Hin | Hin]; congruence || contradiction. }
    subst call. unfold booking_outcome. rewrite Hup, Hok.
    destruct (payload r) as [t | err].
    + eexists. split; [ reflexivity | ].
      intros t' Ht'. injection Ht' as <-. right. split; reflexivity.
    + exists err. split; [ reflexivity | ]. intros t' Ht'. discriminate.
Qed.

Lemma upstream_failure_is_500_witness :
  exists err,
    run Sample.refusing
        (handler Sample.config (Sample.request "POST" ∅ (Some Sample.hold_text))) =
    (Normal {| Response.statusCode := 500;
               Response.headers := Some corsHeaders;
               Response.body :=
                 JSON.stringify (JObject [("error", JString (err_message err))]) |},
     [Fetched (hold_token_call Sample.config); Logged "Function Error:" err])
    /\ err_message err = "seats.io API error: seat taken".
Proof.
  destruct (upstream_failure_is_500
              Sample.config
              (Sample.request "POST" ∅ (Some Sample.hold_text))
              Sample.refusing (hold_token_call Sample.config)
              {| ok := false; payload := Normal "seat taken" |})
    as (err & Hrun & Hmsg).
  - vm_compute. left. reflexivity.
  - reflexivity.
  - reflexivity.
  - exists err. split; [ exact Hrun | ].
    destruct (Hmsg _ eq_refl) as [[_ H] | [Hurl _]]; [ exact H | ].
    vm_compute in Hurl. discriminate Hurl.
Defined.

(** ** One response for every request *)

(** C5.  Under every configuration, every invocation completes normally
    with a response: no error leaves the handler, whether it comes from
    the request, from the upstream or from [btoa] refusing the secret key.
    Every response carries the three CORS headers except the bare 401
    [Unauthorized], without headers, which is what a bookSeat request whose
    bearer credential is absent or different gets, after no effect.
    Whatever the dispatch throws, after whatever effects, is answered with
    status 500, the three CORS headers and the JSON text of
    [{ error: message }], [message] being that of the error thrown, and is
    written to the console once; a request body that is not JSON is one
    such case. *)
Theorem every_request_is_answered
        (e : process_env) (event : Event.t) (upstream : fetch_request -> settlement) :
  exists resp fx,
    run upstream (handler e event) = (Normal resp, fx)
    /\ (Response.headers resp =
        Some [("Access-Control-Allow-Origin", "*");
              ("Access-Control-Allow-Headers", "Content-Type, Authorization");
              ("Access-Control-Allow-Methods", "POST, OPTIONS")]
        \/ (resp = {| Response.statusCode := 401;
                      Response.headers := None;
                      Response.body := "Unauthorized" |}
            /\ Event.httpMethod event ≠ "OPTIONS"
            /\ unauthorized_bookSeat e event))
    /\ (Event.httpMethod event ≠ "OPTIONS" ->
        unauthorized_bookSeat e event ->
        resp = {| Response.statusCode := 401;
                  Response.headers := None;
                  Response.body := "Unauthorized" |}
        /\ fx = [])
    /\ (forall err fx',
          Event.httpMethod event ≠ "OPTIONS" ->
          run upstream (dispatch e event) = (Throws err, fx') ->
          resp = {| Response.statusCode := 500;
                    Response.headers :=
                      Some [("Access-Control-Allow-Origin", "*");
                            ("Access-Control-Allow-Headers",
                             "Content-Type, Authorization");
                            ("Access-Control-Allow-Methods", "POST, OPTIONS")];
                    Response.body :=
                      JSON.stringify (JObject [("error", JString (err_message err))]) |}
          /\ fx = fx' ++ [Logged "Function Error:" err])
    /\ (forall err,
          Event.httpMethod event ≠ "OPTIONS" ->
          request_body event = Throws err ->
          resp = {| Response.statusCode := 500;
                    Response.headers :=
                      Some [("Access-Control-Allow-Origin", "*");
                            ("Access-Control-Allow-Headers",
                             "Content-Type, Authorization");
                            ("Access-Control-Allow-Methods", "POST, OPTIONS")];
                    Response.body :=
                      JSON.stringify (JObject [("error", JString (err_message err))]) |}
          /\ fx = [Logged "Function Error:" err]).
Proof.
  destruct (String.eqb_spec (Event.httpMethod event) "OPTIONS") as [Hm | Hm].
  { exists preflight_response, []. unfold handler. rewrite Hm.
    split; [ reflexivity | ]. split; [ left; reflexivity | ].
    split; [ intros; contradiction | ]. split; intros; contradiction. }
  rewrite run_handler by exact Hm.
  assert (Hshape :
    forall r fx', run upstream (dispatch e event) = (Normal r, fx') ->
      Response.headers r = Some corsHeaders
      \/ (r = unauthorized_response /\ unauthorized_bookSeat e event))
    by apply dispatch_returns.
  assert (Hparse :
    forall err, request_body event = Throws err ->
      run upstream (dispatch e event) = (Throws err, [])).
  { intros err Hb. rewrite (dispatch_unparsable e event err Hb). reflexivity. }
  assert (Hbare :
    unauthorized_bookSeat e event ->
      run upstream (dispatch e event) = (Normal unauthorized_response, [])).
  { intros (props & Hb & Ha & Hauth).
    rewrite (dispatch_unauthorized e event props Hb Ha Hauth). reflexivity. }
  destruct (run upstream (dispatch e event)) as [[r | err] fx] eqn:Hrun.
  - exists r, fx. split; [ reflexivity | ]. split.
    + destruct (Hshape r fx eq_refl) as [H | [H1 H2]]; [ left; exact H | right; auto ].
    + split; [ | split ].
      * intros _ Hu. specialize (Hbare Hu). injection Hbare as -> ->.
        split; reflexivity.
      * intros err fx' _ H. discriminate.
      * intros err _ Hb. specialize (Hparse err Hb). discriminate.
  - exists (error_response err), (fx ++ [Logged "Function Error:" err]).
    split; [ reflexivity | ]. split; [ left; reflexivity | ]. split; [ | split ].
    + intros _ Hu. specialize (Hbare Hu). discriminate.
    + intros err' fx' _ H. injection H as <- <-. split; reflexivity.
    + intros err' _ Hb. specialize (Hparse err' Hb).
      injection Hparse as -> ->. split; reflexivity.
Qed.

Lemma every_request_is_answered_witness :
  exists resp fx,
    run Sample.accepting
        (handler Sample.config (Sample.request "POST" ∅ (Some Sample.broken_text))) =
    (Normal resp, fx)
    /\ Response.statusCode resp = 500
    /\ Response.headers resp =
       Some [("Access-Control-Allow-Origin", "*");
             ("Access-Control-Allow-Headers", "Content-Type, Authorization");
             ("Access-Control-Allow-Methods", "POST, OPTIONS")]
    /\ Response.body resp = Str.dq "{'error':'Unexpected end of JSON input'}"
    /\ fx = [Logged "Function Error:" (SyntaxError "Unexpected end of JSON input")].
Proof.
  destruct (every_request_is_answered
              Sample.config
              (Sample.request "POST" ∅ (Some Sample.broken_text))
              Sample.accepting)
    as (resp & fx & Hrun & _ & _ & _ & Hparse).
  exists resp, fx. split; [ exact Hrun | ].
  destruct (Hparse (SyntaxError "Unexpected end of JSON input")) as [-> ->].
  - discriminate.
  - vm_compute. reflexivity.
  - repeat split.
Defined.

(** ** Missing booking parameters *)

Lemma run_missing_parameters
      (e : process_env) (event : Event.t) (upstream : fetch_request -> settlement)
      (props : list (string * json)) :
  Event.httpMethod event ≠ "OPTIONS" ->
  request_body event = Normal (JObject props) ->
  Obj.get props "action" = Some (JString "bookSeat") ->
  authorized e event ->
  ToBoolean (Obj.get props "seatId") && ToBoolean (Obj.get props "holdToken") = false ->
  run upstream (handler e event) =
  (Normal (error_response (Error "Missing required parameters: seatId or holdToken.")),
   [Logged "Function Error:" (Error "Missing required parameters: seatId or holdToken.")]).
Proof.
  intros Hm Hb Ha Hauth Hf.
  rewrite run_handler by exact Hm.
  rewrite (dispatch_missing_parameters e event props Hb Ha Hauth Hf).
  reflexivity.
Qed.

(** C6.  A bookSeat request with the right bearer credential whose body has
    no [seatId] or no [holdToken] is answered with status 500, the CORS
    headers and the JSON text of [{ error: Missing required parameters:
    seatId or holdToken. }]; the only effect is the line on the console,
    so no outbound call is made. *)
Theorem missing_parameter_is_500
        (e : process_env) (event : Event.t) (upstream : fetch_request -> settlement)
        (props : list (string * json)) :
  Event.httpMethod event ≠ "OPTIONS" ->
  request_body event = Normal (JObject props) ->
  Obj.get props "action" = Some (JString "bookSeat") ->
  authorized e event ->
  Obj.get props "seatId" = None \/ Obj.get props "holdToken" = None ->
  run upstream (handler e event) =
  (Normal {| Response.statusCode := 500;
             Response.headers := Some corsHeaders;
             Response.body :=
               JSON.stringify
                 (JObject [("error",
                            JString "Missing required parameters: seatId or holdToken.")]) |},
   [Logged "Function Error:" (Error "Missing required parameters: seatId or holdToken.")])
  /\ outbound (run upstream (handler e event)).2 = [].
Proof.
  intros Hm Hb Ha Hauth Hmiss.
  rewrite (run_missing_parameters e event upstream props Hm Hb Ha Hauth).
  - split; reflexivity.
  - destruct Hmiss as [-> | ->]; simpl; [ reflexivity | apply andb_false_r ].
Qed.

Lemma missing_parameter_is_500_witness :
  run Sample.accepting
      (handler Sample.config
               (Sample.request "POST" Sample.signed (Some Sample.no_seat_text))) =
  (Normal {| Response.statusCode := 500;
             Response.headers := Some corsHeaders;
             Response.body :=
               Str.dq "{'error':'Missing required parameters: seatId or holdToken.'}" |},
   [Logged "Function Error:" (Error "Missing required parameters: seatId or holdToken.")]).
Proof.
  apply (missing_parameter_is_500
           Sample.config _ Sample.accepting
           [("action", JString "bookSeat"); ("holdToken", JString "tok-1")]).
  - discriminate.
  - vm_compute. reflexivity.
  - reflexivity.
  - vm_compute. reflexivity.
  - left. reflexivity.
Defined.

(** ** Preflight *)

(** C7.  A request whose method is OPTIONS is answered with status 204, the
    three CORS headers and an empty body, whatever its body, its headers
    and the configuration are.  The computation is that answer and nothing
    else: the body is not parsed and no effect is performed. *)
Theorem preflight_is_204
        (e : process_env) (event : Event.t) (upstream : fetch_request -> settlement) :
  Event.httpMethod event = "OPTIONS" ->
  handler e event =
    Return {| Response.statusCode := 204;
              Response.headers :=
                Some [("Access-Control-Allow-Origin", "*");
                      ("Access-Control-Allow-Headers", "Content-Type, Authorization");
                      ("Access-Control-Allow-Methods", "POST, OPTIONS")];
              Response.body := "" |}
  /\ run upstream (handler e event) =
     (Normal {| Response.statusCode := 204;
                Response.headers :=
                  Some [("Access-Control-Allow-Origin", "*");
                        ("Access-Control-Allow-Headers", "Content-Type, Authorization");
                        ("Access-Control-Allow-Methods", "POST, OPTIONS")];
                Response.body := "" |}, []).
Proof.
  intros Hm. unfold handler. rewrite Hm. split; reflexivity.
Qed.

Lemma preflight_is_204_witness :
  run Sample.refusing
      (handler Sample.config
               (Sample.request "OPTIONS" Sample.forged (Some Sample.broken_text))) =
  (Normal {| Response.statusCode := 204;
             Response.headers :=
               Some [("Access-Control-Allow-Origin", "*");
                     ("Access-Control-Allow-Headers", "Content-Type, Authorization");
                     ("Access-Control-Allow-Methods", "POST, OPTIONS")];
             Response.body := "" |}, []).
Proof.
  apply (preflight_is_204 Sample.config _ Sample.refusing). reflexivity.
Defined.

(** ** Unrecognised actions *)

Lemma parse_empty_object : JSON.parse "{}" = Normal (JObject []).
Proof. vm_compute. reflexivity. Qed.

Lemma request_body_absent (event : Event.t) :
  Event.body event = None \/ Event.body event = Some "" ->
  request_body event = Normal (JObject []).
Proof.
  unfold request_body. intros [-> | ->]; simpl; apply parse_empty_object.
Qed.

(** C8.  A request whose method is not OPTIONS and whose body parses to a
    value other than [null] whose [action] is neither [createHoldToken] nor
    [bookSeat] (an object with another action or with none; also an array,
    a string, a number or a boolean) is answered with status 500, the CORS
    headers and the JSON text of [{ error: Invalid action specified in
    request body. }], and no outbound call is made.  A body that is absent
    or empty is parsed as the text of the empty object and is such a
    request. *)
Theorem unrecognised_action_is_500
        (e : process_env) (event : Event.t) (upstream : fetch_request -> settlement) :
  Event.httpMethod event ≠ "OPTIONS" ->
  Event.body event = None
  \/ Event.body event = Some ""
  \/ (exists body action,
        request_body event = Normal body
        /\ get_prop body "action" = Normal action
        /\ action ≠ Some (JString "createHoldToken")
        /\ action ≠ Some (JString "bookSeat")) ->
  run upstream (handler e event) =
  (Normal {| Response.statusCode := 500;
             Response.headers := Some corsHeaders;
             Response.body :=
               JSON.stringify
                 (JObject [("error",
                            JString "Invalid action specified in request body.")]) |},
   [Logged "Function Error:" (Error "Invalid action specified in request body.")])
  /\ outbound (run upstream (handler e event)).2 = [].
Proof.
  intros Hm Hreq.
  assert (Hd : dispatch e event = Throw (Error "Invalid action specified in request body.")).
  { destruct Hreq as [Hb | [Hb | (body & action & Hb & Ha & Hc & Hk)]].
    - apply (dispatch_invalid_action e event (JObject []) None);
        [ apply request_body_absent; auto | reflexivity .. ].
    - apply (dispatch_invalid_action e event (JObject []) None);
        [ apply request_body_absent; auto | reflexivity .. ].
    - apply (dispatch_invalid_action e event body action Hb Ha);
        apply is_string_false; assumption. }
  rewrite run_handler by exact Hm. rewrite Hd. split; reflexivity.
Qed.

Lemma unrecognised_action_is_500_witness :
  run Sample.accepting
      (handler Sample.config (Sample.request "POST" ∅ (Some Sample.cancel_text))) =
  (Normal {| Response.statusCode := 500;
             Response.headers := Some corsHeaders;
             Response.body :=
               Str.dq "{'error':'Invalid action specified in request body.'}" |},
   [Logged "Function Error:" (Error "Invalid action specified in request body.")]).
Proof.
  apply (unrecognised_action_is_500 Sample.config _ Sample.accepting).
  - discriminate.
  - right. right.
    exists (JObject [("action", JString "cancelSeat")]), (Some (JString "cancelSeat")).
    split; [ vm_compute; reflexivity | ].
    split; [ reflexivity | ].
    split; discriminate.
Defined.

(** ** Falsy booking parameters *)

Lemma falsy_ToBoolean (v : json) : falsy v -> ToBoolean (Some v) = false.
Proof. intros [-> | [-> | [-> | [-> | ->]]]]; reflexivity. Qed.

(** C10.  A bookSeat request with the right bearer credential whose
    [seatId] or [holdToken] is the empty string, zero, [false] or [null] is
    answered like one that lacks the field: status 500, the CORS headers,
    the JSON text of [{ error: Missing required parameters: seatId or
    holdToken. }], and no outbound call. *)
Theorem falsy_parameter_is_500
        (e : process_env) (event : Event.t) (upstream : fetch_request -> settlement)
        (props : list (string * json)) (v : json) :
  Event.httpMethod event ≠ "OPTIONS" ->
  request_body event = Normal (JObject props) ->
  Obj.get props "action" = Some (JString "bookSeat") ->
  authorized e event ->
  falsy v ->
  Obj.get props "seatId" = Some v \/ Obj.get props "holdToken" = Some v ->
  run upstream (handler e event) =
  (Normal {| Response.statusCode := 500;
             Response.headers := Some corsHeaders;
             Response.body :=
               JSON.stringify
                 (JObject [("error",
                            JString "Missing required parameters: seatId or holdToken.")]) |},
   [Logged "Function Error:" (Error "Missing required parameters: seatId or holdToken.")])
  /\ outbound (run upstream (handler e event)).2 = [].
Proof.
  intros Hm Hb Ha Hauth Hv Hfield.
  rewrite (run_missing_parameters e event upstream props Hm Hb Ha Hauth).
  - split; reflexivity.
  - apply falsy_ToBoolean in Hv.
    destruct Hfield as [-> | ->]; rewrite Hv; [ reflexivity | apply andb_false_r ].
Qed.

Lemma falsy_parameter_is_500_witness :
  run Sample.accepting
      (handler Sample.config
               (Sample.request "POST" Sample.signed (Some Sample.zero_seat_text))) =
  (Normal {| Response.statusCode := 500;
             Response.headers := Some corsHeaders;
             Response.body :=
               Str.dq "{'error':'Missing required parameters: seatId or holdToken.'}" |},
   [Logged "Function Error:" (Error "Missing required parameters: seatId or holdToken.")]).
Proof.
  apply (falsy_parameter_is_500
           Sample.config _ Sample.accepting
           [("action", JString "bookSeat"); ("seatId", JNumber (S754_zero false));
            ("holdToken", JString "tok-1")]
           (JNumber (S754_zero false))).
  - discriminate.
  - vm_compute. reflexivity.
  - reflexivity.
  - vm_compute. reflexivity.
  - right. left. reflexivity.
  - left. reflexivity.
Defined.

(** ** What a response tells of the configuration *)

(** C9 as stated does not hold.  The event identifier is handed to the
    caller: with the sample configuration, the body of the answer to a
    createHoldToken request holds [evt-2024]. *)
Lemma event_key_is_returned : ~ secrets_never_echoed.
Proof.
  intros H.
  specialize (H Sample.config
                (Sample.request "POST" ∅ (Some Sample.hold_text))
                Sample.accepting
                (hold_token_response Sample.config (Some (JString "tok-1")))
                [Fetched (hold_token_call Sample.config)]).
  vm_compute in H. specialize (H eq_refl). discriminate H.
Qed.

Lemma answers_alike_refl {A : Type} (R : A -> A -> Prop) (m : io A) :
  (forall a, R a a) -> answers_alike R m m.
Proof. intros HR. induction m; simpl; auto. Qed.

Lemma answers_alike_bind {A B : Type} (R : B -> B -> Prop)
      (m : io A) (f g : A -> io B) :
  (forall a, answers_alike R (f a) (g a)) ->
  answers_alike R (io_bind f m) (io_bind g m).
Proof. intros Hfg. induction m; simpl; auto. Qed.

Lemma answers_alike_try_catch {A : Type} (R : A -> A -> Prop)
      (m1 m2 : io A) (h : js_error -> io A) :
  (forall a, R a a) ->
  answers_alike R m1 m2 ->
  answers_alike R (try_catch m1 h) (try_catch m2 h).
Proof.
  intros HR. revert m2.
  induction m1 as [a1 | e1 | req1 k1 IH | l1 e1 k1 IH];
    intros [a2 | e2 | req2 k2 | l2 e2 k2]; simpl; try contradiction; auto.
  - intros ->. apply answers_alike_refl. exact HR.
  - intros (-> & -> & H). auto.
Qed.

(** The booking branch after the authorization check answers alike under
    two configurations: they differ at most in the call.  [credentials]
    settles what [btoa] makes of the two secret keys. *)
Ltac booking_answers_alike body credentials :=
  simpl;
  destruct (destructure body "seatId") as [seatId | ?];
    [ | apply answers_alike_refl; auto ];
  simpl;
  destruct (destructure body "holdToken") as [holdToken | ?];
    [ | apply answers_alike_refl; auto ];
  simpl;
  destruct (negb (ToBoolean seatId) || negb (ToBoolean holdToken));
    [ apply answers_alike_refl; auto | ];
  simpl; credentials; simpl;
  first [ solve [ repeat split ]
        | intros s; apply answers_alike_refl; auto ].

(** What [btoa] makes of two keys that it both accepts or both refuses. *)
Lemma btoa_alike (key1 key2 : option string) :
  accepted_key key1 = accepted_key key2 ->
  (exists c1 c2,
      btoa (ToString_env key1 +:+ ":") = Normal c1
      /\ btoa (ToString_env key2 +:+ ":") = Normal c2)
  \/ (exists err,
        btoa (ToString_env key1 +:+ ":") = Throws err
        /\ btoa (ToString_env key2 +:+ ":") = Throws err).
Proof.
  unfold accepted_key.
  destruct (btoa (ToString_env key1 +:+ ":")) as [c1 | e1] eqn:H1;
    destruct (btoa (ToString_env key2 +:+ ":")) as [c2 | e2] eqn:H2;
    try discriminate; intros _.
  - left. eauto.
  - right. exists e1. split; [ reflexivity | ].
    rewrite (btoa_throws _ _ H1), (btoa_throws _ _ H2). reflexivity.
Qed.

(** C9, amended.  The secret key and the webhook secret stay out of what
    the handler answers, under every configuration.  With the same request
    and the same settlements of the outbound calls, the answer and the
    console lines are the same for any two secret keys that [btoa] both
    accepts or both refuses ([btoa] accepts a key whose code units are all
    below 256): the answer depends on the secret key through that alone.
    The webhook secret enters only the comparison with the authorization
    header: two webhook secrets for which that comparison comes out the
    same give the same computation.  The event identifier is returned to
    the caller, as the [eventKey] property of the 200 response of
    createHoldToken; apart from that property, no answer depends on it. *)
Theorem secrets_stay_out_of_answers (e : process_env) (event : Event.t) :
  (forall key,
      accepted_key key = accepted_key (SEATSIO_SECRET_KEY e) ->
      answers_alike eq (handler e event) (handler (with_secret_key e key) event))
  /\ (forall secret,
        (authorized e event <-> authorized (with_webhook_secret e secret) event) ->
        handler (with_webhook_secret e secret) event = handler e event)
  /\ (forall eventKey,
        answers_alike (same_but_eventKey (SEATSIO_EVENT_KEY e) eventKey)
                      (handler e event) (handler (with_event_key e eventKey) event)).
Proof.
  split; [ | split ].
  - intros key Hk. symmetry in Hk.
    unfold handler, dispatch.
    destruct (String.eqb (Event.httpMethod event) "OPTIONS"); [ reflexivity | ].
    destruct (JSON.parse (or_default (Event.body event) "{}")) as [body | err];
      [ | apply answers_alike_refl; auto ].
    simpl. destruct (get_prop body "action") as [action | err];
      [ | apply answers_alike_refl; auto ].
    simpl. destruct (is_string action "createHoldToken").
    { simpl.
      destruct (btoa_alike _ _ Hk) as [(c1 & c2 & -> & ->) | (err & -> & ->)]; simpl.
      - intros s. apply answers_alike_refl; auto.
      - repeat split. }
    destruct (is_string action "bookSeat"); [ | apply answers_alike_refl; auto ].
    change (bearer (with_secret_key e key)) with (bearer e).
    destruct (bool_decide _); [ | apply answers_alike_refl; auto ].
    booking_answers_alike body
      ltac:(destruct (btoa_alike _ _ Hk) as [(c1 & c2 & -> & ->) | (err' & -> & ->)]).
  - intros secret Hiff. unfold handler, dispatch.
    destruct (String.eqb (Event.httpMethod event) "OPTIONS"); [ reflexivity | ].
    f_equal.
    destruct (JSON.parse (or_default (Event.body event) "{}")) as [body | err];
      [ | reflexivity ].
    simpl. destruct (get_prop body "action") as [action | err]; [ | reflexivity ].
    simpl. destruct (is_string action "createHoldToken"); [ reflexivity | ].
    destruct (is_string action "bookSeat"); [ | reflexivity ].
    unfold authorized in Hiff.
    rewrite (bool_decide_ext _ _ Hiff).
    reflexivity.
  - intros eventKey.
    assert (HR : forall r, same_but_eventKey (SEATSIO_EVENT_KEY e) eventKey r r)
      by (left; reflexivity).
    unfold handler.
    destruct (String.eqb (Event.httpMethod event) "OPTIONS"); [ apply HR | ].
    apply answers_alike_try_catch; [ exact HR | ].
    unfold dispatch.
    destruct (JSON.parse (or_default (Event.body event) "{}")) as [body | err];
      [ | apply answers_alike_refl; auto ].
    simpl. destruct (get_prop body "action") as [action | err];
      [ | apply answers_alike_refl; auto ].
    simpl. destruct (is_string action "createHoldToken").
    { simpl.
      destruct (btoa (ToString_env (SEATSIO_SECRET_KEY e) +:+ ":")) as [c | err];
        simpl; [ | reflexivity ].
      intros s. apply answers_alike_bind. intros response.
      destruct (negb (ok response)); [ apply answers_alike_refl; auto | ].
      apply answers_alike_bind. intros parsed.
      apply answers_alike_bind. intros holdToken.
      right. exists holdToken. split; reflexivity. }
    destruct (is_string action "bookSeat"); [ | apply answers_alike_refl; auto ].
    change (bearer (with_event_key e eventKey)) with (bearer e).
    destruct (bool_decide _); [ | apply answers_alike_refl; auto ].
    booking_answers_alike body
      ltac:(destruct (btoa (ToString_env (SEATSIO_SECRET_KEY e) +:+ ":")) as [c | err']).
Qed.

Lemma secrets_stay_out_of_answers_witness :
  answers_alike eq
    (handler Sample.config
             (Sample.request "POST" Sample.signed (Some Sample.book_text)))
    (handler (with_secret_key Sample.config (Some "sk-other"))
             (Sample.request "POST" Sample.signed (Some Sample.book_text)))
  /\ handler (with_webhook_secret Sample.config (Some "other"))
             (Sample.request "POST" Sample.forged (Some Sample.book_text))
     = handler Sample.config
               (Sample.request "POST" Sample.forged (Some Sample.book_text)).
Proof.
  split.
  - exact (proj1 (secrets_stay_out_of_answers
                    Sample.config
                    (Sample.request "POST" Sample.signed (Some Sample.book_text)))
                 (Some "sk-other") eq_refl).
  - refine (proj1 (proj2 (secrets_stay_out_of_answers
                            Sample.config
                            (Sample.request "POST" Sample.forged
                                            (Some Sample.book_text))))
                  (Some "other") _).
    unfold authorized. split; intros H; vm_compute in H; discriminate H.
Defined.

(** * Further properties of the handler *)

(** ** Every run, by the way it takes *)

Lemma run_paths (e : env) (event : Event.t) (upstream : fetch_request -> settlement) :
  (Event.httpMethod event = "OPTIONS"
   /\ run upstream (handler e event) = (Normal preflight_response, []))
  \/ (Event.httpMethod event ≠ "OPTIONS"
      /\ exists err,
           dispatch e event = Throw err
           /\ run upstream (handler e event) =
              (Normal (error_response err), [Logged "Function Error:" err]))
  \/ (Event.httpMethod event ≠ "OPTIONS"
      /\ unauthorized_bookSeat e event
      /\ run upstream (handler e event) = (Normal unauthorized_response, []))
  \/ (Event.httpMethod event ≠ "OPTIONS"
      /\ asks_hold_token event
      /\ run upstream (handler e event) =
         caught (hold_token_outcome e (upstream (hold_token_call e)))
                [Fetched (hold_token_call e)])
  \/ (Event.httpMethod event ≠ "OPTIONS"
      /\ exists props,
           books e event props
           /\ run upstream (handler e event) =
              caught (booking_outcome
                        (Obj.get props "seatId")
                        (upstream (book_call e (Obj.get props "seatId")
                                             (Obj.get props "holdToken"))))
                     [Fetched (book_call e (Obj.get props "seatId")
                                         (Obj.get props "holdToken"))]).
Proof.
  destruct (String.eqb_spec (Event.httpMethod event) "OPTIONS") as [Hm | Hm].
  { left. split; [ exact Hm | ]. unfold handler. rewrite Hm. reflexivity. }
  right. rewrite run_handler by exact Hm.
  destruct (dispatch_paths e event)
    as [[err Hd] | [[Hd Hu] | [(body & Hb & Ha) | (props & Hb & Ha & Hauth & Hs & Ht)]]].
  - left. split; [ exact Hm | ]. exists err. rewrite Hd. auto.
  - right. left. rewrite Hd. auto.
  - right. right. left. split; [ exact Hm | ]. split; [ exists body; auto | ].
    rewrite (run_dispatch_hold_token e event upstream body Hb Ha).
    unfold hold_token_outcome, caught.
    destruct (upstream _) as [r | err]; [ | reflexivity ].
    destruct (payload r) as [t | err]; [ | reflexivity ].
    destruct (ok r); [ | reflexivity ].
    destruct (JSON.parse t) as [parsed | err]; [ | reflexivity ].
    destruct (destructure parsed "holdToken"); reflexivity.
  - right. right. right. split; [ exact Hm | ]. exists props.
    split; [ unfold books; auto | ].
    rewrite (run_dispatch_book e event upstream props Hb Ha Hauth Hs Ht).
    unfold booking_outcome, caught.
    destruct (upstream _) as [r | err]; [ | reflexivity ].
    destruct (ok r); [ reflexivity | ].
    destruct (payload r); reflexivity.
Qed.

(** The same under every configuration: with a key that [btoa] refuses a
    run takes one of the first three ways. *)
Lemma run_ways (e : process_env) (event : Event.t)
      (upstream : fetch_request -> settlement) :
  (Event.httpMethod event = "OPTIONS"
   /\ run upstream (handler e event) = (Normal preflight_response, []))
  \/ (Event.httpMethod event ≠ "OPTIONS"
      /\ exists err,
           dispatch e event = Throw err
           /\ run upstream (handler e event) =
              (Normal (error_response err), [Logged "Function Error:" err]))
  \/ (Event.httpMethod event ≠ "OPTIONS"
      /\ unauthorized_bookSeat e event
      /\ run upstream (handler e event) = (Normal unauthorized_response, []))
  \/ (exists e' : env,
        vars e' = e
        /\ Event.httpMethod event ≠ "OPTIONS"
        /\ asks_hold_token event
        /\ run upstream (handler e' event) =
           caught (hold_token_outcome e' (upstream (hold_token_call e')))
                  [Fetched (hold_token_call e')])
  \/ (exists (e' : env) props,
        vars e' = e
        /\ Event.httpMethod event ≠ "OPTIONS"
        /\ books e' event props
        /\ run upstream (handler e' event) =
           caught (booking_outcome
                     (Obj.get props "seatId")
                     (upstream (book_call e' (Obj.get props "seatId")
                                          (Obj.get props "holdToken"))))
                  [Fetched (book_call e' (Obj.get props "seatId")
                                      (Obj.get props "holdToken"))]).
Proof.
  destruct (accepted_key (SEATSIO_SECRET_KEY e)) eqn:Hk.
  - destruct (run_paths {| vars := e; key_accepted := Hk |} event upstream)
      as [H | [H | [H | [(Hm & Ha & Hr) | (Hm & props & Hb & Hr)]]]].
    + left. exact H.
    + right. left. exact H.
    + right. right. left. exact H.
    + right. right. right. left.
      exists {| vars := e; key_accepted := Hk |}. auto.
    + right. right. right. right.
      exists {| vars := e; key_accepted := Hk |}, props. auto.
  - destruct (String.eqb_spec (Event.httpMethod event) "OPTIONS") as [Hm | Hm].
    { left. split; [ exact Hm | ]. unfold handler. rewrite Hm. reflexivity. }
    right. rewrite run_handler by exact Hm.
    destruct (dispatch_refused e event Hk) as [[err Hd] | [Hd Hu]].
    + left. split; [ exact Hm | ]. exists err. rewrite Hd. auto.
    + right. left. rewrite Hd. auto.
Qed.

Lemma caught_normal (c : completion Response.t) (pre : list effect) :
  exists resp, (caught c pre).1 = Normal resp.
Proof. destruct c; simpl; eauto. Qed.

Lemma outbound_caught (c : completion Response.t) (call : fetch_request) :
  outbound (caught c [Fetched call]).2 = [call].
Proof. destruct c; reflexivity. Qed.

Lemma in_outbound_caught (c : completion Response.t) (call call' : fetch_request) :
  In call (outbound (caught c [Fetched call']).2) -> call = call'.
Proof.
  rewrite outbound_caught. intros [H | []]. symmetry. exact H.
Qed.

(** The call a run makes, if it makes one. *)
Lemma the_outbound_call
      (e : process_env) (event : Event.t) (upstream : fetch_request -> settlement)
      (call : fetch_request) :
  In call (outbound (run upstream (handler e event)).2) ->
  exists e' : env,
    vars e' = e
    /\ ((call = hold_token_call e'
         /\ run upstream (handler e' event) =
            caught (hold_token_outcome e' (upstream call)) [Fetched call])
        \/ (exists props,
              books e' event props
              /\ call = book_call e' (Obj.get props "seatId") (Obj.get props "holdToken")
              /\ run upstream (handler e' event) =
                 caught (booking_outcome (Obj.get props "seatId") (upstream call))
                        [Fetched call])).
Proof.
  intros Hin.
  destruct (run_ways e event upstream)
    as [[_ Hr] | [(_ & err & _ & Hr) | [(_ & _ & Hr)
       | [(e' & <- & _ & _ & Hr) | (e' & props & <- & _ & Hb & Hr)]]]];
    rewrite Hr in Hin; try contradiction.
  - apply in_outbound_caught in Hin. subst call. exists e'. auto.
  - apply in_outbound_caught in Hin. subst call. exists e'.
    split; [ reflexivity | ]. right. exists props. auto.
Qed.

(** ** The outbound calls *)

(** X1.  Whatever call the handler makes is a POST that carries the Basic
    credentials built from the secret key, and goes to one of two places:
    the hold-token endpoint, with no body, or the booking action of the
    configured event, with a JSON body. *)
Theorem outbound_calls_carry_the_credentials
        (e : process_env) (event : Event.t) (upstream : fetch_request -> settlement)
        (call : fetch_request) :
  In call (outbound (run upstream (handler e event)).2) ->
  method call = "POST"
  /\ (exists credentials,
        btoa (ToString_env (SEATSIO_SECRET_KEY e) +:+ ":") = Normal credentials
        /\ In ("Authorization", "Basic " +:+ credentials) (req_headers call))
  /\ ((url call = "https://api.seats.io/hold-tokens" /\ req_body call = None)
      \/ (url call = "https://api.seats.io/events/"
                     +:+ ToString_env (SEATSIO_EVENT_KEY e) +:+ "/actions/book"
          /\ In ("Content-Type", "application/json") (req_headers call)
          /\ exists b, req_body call = Some b)).
Proof.
  intros Hin.
  destruct (the_outbound_call e event upstream call Hin)
    as (e' & <- & [[-> _] | (props & _ & -> & _)]);
    destruct (btoa_key e') as (c & Hc & Hb).
  - split; [ reflexivity | ]. split.
    + exists c. split; [ exact Hc | ]. left. simpl. rewrite Hb. reflexivity.
    + left. split; reflexivity.
  - split; [ reflexivity | ]. split.
    + exists c. split; [ exact Hc | ]. right. left. simpl. rewrite Hb. reflexivity.
    + right. split; [ reflexivity | ]. split; [ left; reflexivity | ]. eauto.
Qed.

Lemma outbound_calls_carry_the_credentials_witness :
  method (hold_token_call Sample.config) = "POST"
  /\ In ("Authorization", "Basic c2stZGVtbzo=")
        (req_headers (hold_token_call Sample.config)).
Proof.
  destruct (outbound_calls_carry_the_credentials
              Sample.config (Sample.request "POST" ∅ (Some Sample.hold_text))
              Sample.accepting (hold_token_call Sample.config))
    as (Hm & (c & Hc & Hh) & _).
  - vm_compute. left. reflexivity.
  - split; [ exact Hm | ].
    vm_compute in Hc. injection Hc as <-. exact Hh.
Defined.

(** X2.  No invocation makes more than one outbound call, whatever the
    request and whatever the upstream answers. *)
Theorem at_most_one_outbound_call
        (e : process_env) (event : Event.t) (upstream : fetch_request -> settlement) :
  (List.length (outbound (run upstream (handler e event)).2) <= 1)%nat.
Proof.
  destruct (run_ways e event upstream)
    as [[_ Hr] | [(_ & err & _ & Hr) | [(_ & _ & Hr)
       | [(e' & <- & _ & _ & Hr) | (e' & props & <- & _ & _ & Hr)]]]];
    rewrite Hr; rewrite ?outbound_caught; simpl; lia.
Qed.

(** X3.  The handler reaches the upstream exactly when the method is not
    OPTIONS, the request either asks for a hold token or books with the
    right credential and truthy [seatId] and [holdToken], and [btoa]
    accepts the secret key. *)
Theorem outbound_call_iff
        (e : process_env) (event : Event.t) (upstream : fetch_request -> settlement) :
  outbound (run upstream (handler e event)).2 ≠ []
  <-> Event.httpMethod event ≠ "OPTIONS"
      /\ (asks_hold_token event \/ exists props, books e event props)
      /\ accepted_key (SEATSIO_SECRET_KEY e) = true.
Proof.
  split.
  - intros Hne.
    destruct (run_ways e event upstream)
      as [[_ Hr] | [(_ & err & _ & Hr) | [(_ & _ & Hr)
         | [(e' & <- & Hm & Ha & _) | (e' & props & <- & Hm & Hb & _)]]]];
      try (rewrite Hr in Hne; contradiction).
    + split; [ exact Hm | ]. split; [ left; exact Ha | apply key_accepted ].
    + split; [ exact Hm | ].
      split; [ right; exists props; exact Hb | apply key_accepted ].
  - intros (Hm & Hreq & Hk).
    change e with (vars {| vars := e; key_accepted := Hk |}).
    set (e' := {| vars := e; key_accepted := Hk |}).
    rewrite run_handler by exact Hm.
    destruct Hreq as [(body & Hb & Ha) | (props & Hb & Ha & Hauth & Hs & Ht)].
    + rewrite (run_dispatch_hold_token e' event upstream body Hb Ha).
      destruct (hold_token_outcome e' (upstream (hold_token_call e'))); discriminate.
    + rewrite (run_dispatch_book e' event upstream props Hb Ha Hauth Hs Ht).
      cbv zeta.
      destruct (booking_outcome _ (upstream (book_call e' _ _))); discriminate.
Qed.

(** ** What the status says *)

(** X4.  A 200 is returned only after one outbound call that the upstream
    answered with a success status: the handler never reports success on
    its own. *)
Theorem success_only_after_upstream_ok
        (e : process_env) (event : Event.t) (upstream : fetch_request -> settlement)
        (resp : Response.t) (fx : list effect) :
  run upstream (handler e event) = (Normal resp, fx) ->
  Response.statusCode resp = 200 ->
  exists call r,
    fx = [Fetched call] /\ upstream call = Normal r /\ ok r = true.
Proof.
  intros Hrun Hs.
  destruct (run_ways e event upstream)
    as [[_ Hr] | [(_ & err & _ & Hr) | [(_ & _ & Hr)
       | [(e' & <- & _ & _ & Hr) | (e' & props & <- & _ & _ & Hr)]]]];
    rewrite Hr in Hrun.
  - injection Hrun as <- _. discriminate.
  - injection Hrun as <- _. discriminate.
  - injection Hrun as <- _. discriminate.
  - exists (hold_token_call e'). unfold hold_token_outcome, caught in Hrun.
    destruct (upstream (hold_token_call e')) as [r | err];
      [ | injection Hrun as <- _; discriminate ].
    exists r.
    destruct (payload r) as [t | err]; [ | injection Hrun as <- _; discriminate ].
    destruct (ok r); [ | injection Hrun as <- _; discriminate ].
    destruct (JSON.parse t) as [parsed | err];
      [ | injection Hrun as <- _; discriminate ].
    destruct (destructure parsed "holdToken");
      injection Hrun as <- <-; [ auto | discriminate ].
  - exists (book_call e' (Obj.get props "seatId") (Obj.get props "holdToken")).
    unfold booking_outcome, caught in Hrun.
    destruct (upstream (book_call e' _ _)) as [r | err];
      [ | injection Hrun as <- _; discriminate ].
    exists r.
    destruct (ok r).
    + destruct (ToString_value _);
        [ injection Hrun as <- <-; auto | injection Hrun as <- _; discriminate ].
    + destruct (payload r); injection Hrun as <- _; discriminate.
Qed.

Lemma success_only_after_upstream_ok_witness :
  exists call r,
    [Fetched (hold_token_call Sample.config)] = [Fetched call]
    /\ Sample.accepting call = Normal r /\ ok r = true.
Proof.
  apply (success_only_after_upstream_ok
           Sample.config (Sample.request "POST" ∅ (Some Sample.hold_text))
           Sample.accepting
           (hold_token_response Sample.config (Some (JString "tok-1")))).
  - vm_compute. reflexivity.
  - reflexivity.
Defined.

(** X5.  Every invocation returns a response whose status is 204, 200, 401
    or 500.  It is 204 exactly for the method OPTIONS, and 401 exactly for
    a bookSeat request, of another method, whose bearer credential is
    absent or different. *)
Theorem status_tells_the_branch
        (e : process_env) (event : Event.t) (upstream : fetch_request -> settlement) :
  exists resp fx,
    run upstream (handler e event) = (Normal resp, fx)
    /\ (Response.statusCode resp = 204 \/ Response.statusCode resp = 200
        \/ Response.statusCode resp = 401 \/ Response.statusCode resp = 500)
    /\ (Response.statusCode resp = 204 <-> Event.httpMethod event = "OPTIONS")
    /\ (Response.statusCode resp = 401
        <-> Event.httpMethod event ≠ "OPTIONS" /\ unauthorized_bookSeat e event).
Proof.
  destruct (run_ways e event upstream)
    as [[Hm Hr] | [(Hm & err & Hd & Hr) | [(Hm & Hu & Hr)
       | [(e' & <- & Hm & Ha & Hr) | (e' & props & <- & Hm & Hb & Hr)]]]].
  - exists preflight_response, []. split; [ exact Hr | ].
    split; [ left; reflexivity | ]. split; [ tauto | ].
    split; [ discriminate | tauto ].
  - exists (error_response err), [Logged "Function Error:" err].
    split; [ exact Hr | ]. split; [ auto | ].
    split; [ split; [ discriminate | contradiction ] | ].
    split; [ discriminate | ].
    intros [_ (props & Hb & Hact & Hauth)].
    rewrite (dispatch_unauthorized e event props Hb Hact Hauth) in Hd. discriminate.
  - exists unauthorized_response, []. split; [ exact Hr | ].
    split; [ auto | ]. split; [ split; [ discriminate | contradiction ] | ].
    split; auto.
  - assert (Hnot : ~ unauthorized_bookSeat e' event).
    { destruct Ha as (body & Hb & Hact). intros (props & Hb' & Hact' & _).
      rewrite Hb in Hb'. injection Hb' as ->. simpl in Hact. congruence. }
    destruct (hold_token_outcome e' (upstream (hold_token_call e'))) as [r | err] eqn:Ho.
    + exists r, [Fetched (hold_token_call e')]. split; [ exact Hr | ].
      assert (Hs : Response.statusCode r = 200).
      { unfold hold_token_outcome in Ho.
        destruct (upstream _) as [u | ?]; [ | discriminate ].
        destruct (payload u) as [t | ?]; [ | discriminate ].
        destruct (ok u); [ | discriminate ].
        destruct (JSON.parse t) as [parsed | ?]; [ | discriminate ].
        destruct (destructure parsed "holdToken"); [ | discriminate ].
        injection Ho as <-. reflexivity. }
      rewrite Hs. split; [ auto | ].
      split; [ split; [ discriminate | contradiction ] | ].
      split; [ discriminate | tauto ].
    + eexists _, _. split; [ exact Hr | ]. split; [ auto | ].
      split; [ split; [ discriminate | contradiction ] | ].
      split; [ discriminate | tauto ].
  - assert (Hnot : ~ unauthorized_bookSeat e' event).
    { destruct Hb as (Hb & _ & Hauth & _). intros (props' & _ & _ & Hn). tauto. }
    destruct (booking_outcome (Obj.get props "seatId") (upstream _)) as [r | err] eqn:Ho.
    + eexists _, _. split; [ exact Hr | ].
      assert (Hs : Response.statusCode r = 200).
      { unfold booking_outcome in Ho.
        destruct (upstream _) as [u | ?]; [ | discriminate ].
        destruct (ok u);
          [ destruct (ToString_value _); [ injection Ho as <-; reflexivity | discriminate ] | ].
        destruct (payload u); discriminate. }
      simpl. rewrite Hs. split; [ auto | ].
      split; [ split; [ discriminate | contradiction ] | ].
      split; [ discriminate | tauto ].
    + eexists _, _. split; [ exact Hr | ]. split; [ auto | ].
      split; [ split; [ discriminate | contradiction ] | ].
      split; [ discriminate | tauto ].
Qed.

(** X6.  The console gets one line exactly when the status is 500: a 500
    comes after the calls made, then one line with the error whose message
    the body returns; with any other status the effects are calls only. *)
Theorem one_console_line_iff_500
        (e : process_env) (event : Event.t) (upstream : fetch_request -> settlement)
        (resp : Response.t) (fx : list effect) :
  run upstream (handler e event) = (Normal resp, fx) ->
  (Response.statusCode resp = 500 ->
   exists err,
     fx = List.map Fetched (outbound fx) ++ [Logged "Function Error:" err]
     /\ Response.body resp =
        JSON.stringify (JObject [("error", JString (err_message err))]))
  /\ (Response.statusCode resp ≠ 500 -> fx = List.map Fetched (outbound fx)).
Proof.
  assert (Hc : forall c call,
             caught c [Fetched call] = (Normal resp, fx) ->
             (Response.statusCode resp = 500 ->
              (exists r, c = Normal r /\ Response.statusCode r = 500) \/
              exists err,
                fx = List.map Fetched (outbound fx) ++ [Logged "Function Error:" err]
                /\ Response.body resp =
                   JSON.stringify (JObject [("error", JString (err_message err))]))
             /\ (Response.statusCode resp ≠ 500 -> fx = List.map Fetched (outbound fx))).
  { intros [r | err] call H; simpl in H; injection H as <- <-.
    - split; [ intros Hs; left; eauto | reflexivity ].
    - split; [ intros _; right; exists err; split; reflexivity | ].
      intros Hn. exfalso. apply Hn. reflexivity. }
  intros Hrun.
  destruct (run_ways e event upstream)
    as [[_ Hr] | [(_ & err & _ & Hr) | [(_ & _ & Hr)
       | [(e' & <- & _ & _ & Hr) | (e' & props & <- & _ & _ & Hr)]]]];
    rewrite Hr in Hrun.
  - injection Hrun as <- <-. split; [ discriminate | reflexivity ].
  - injection Hrun as <- <-.
    split; [ intros _; exists err; split; reflexivity | ].
    intros Hn. exfalso. apply Hn. reflexivity.
  - injection Hrun as <- <-. split; [ discriminate | reflexivity ].
  - destruct (Hc _ _ Hrun) as [H5 Hn]. split; [ | exact Hn ].
    intros Hs. destruct (H5 Hs) as [(r & Ho & Hs') | H]; [ | exact H ].
    exfalso. unfold hold_token_outcome in Ho.
    destruct (upstream _) as [u | ?]; [ | discriminate ].
    destruct (payload u) as [t | ?]; [ | discriminate ].
    destruct (ok u); [ | discriminate ].
    destruct (JSON.parse t) as [parsed | ?]; [ | discriminate ].
    destruct (destructure parsed "holdToken"); [ | discriminate ].
    injection Ho as <-. discriminate.
  - destruct (Hc _ _ Hrun) as [H5 Hn]. split; [ | exact Hn ].
    intros Hs. destruct (H5 Hs) as [(r & Ho & Hs') | H]; [ | exact H ].
    exfalso. unfold booking_outcome in Ho.
    destruct (upstream _) as [u | ?]; [ | discriminate ].
    destruct (ok u);
      [ destruct (ToString_value _); [ injection Ho as <-; discriminate | discriminate ] | ].
    destruct (payload u); discriminate.
Qed.

Lemma one_console_line_iff_500_witness :
  exists err,
    [Fetched (hold_token_call Sample.config);
     Logged "Function Error:" (Error "seats.io API error: seat taken")]
    = [Fetched (hold_token_call Sample.config)] ++ [Logged "Function Error:" err]
    /\ Response.body (error_response (Error "seats.io API error: seat taken"))
       = JSON.stringify (JObject [("error", JString (err_message err))]).
Proof.
  refine (proj1 (one_console_line_iff_500
                   Sample.config (Sample.request "POST" ∅ (Some Sample.hold_text))
                   Sample.refusing
                   (error_response (Error "seats.io API error: seat taken"))
                   [Fetched (hold_token_call Sample.config);
                    Logged "Function Error:" (Error "seats.io API error: seat taken")]
                   _) _).
  - vm_compute. reflexivity.
  - reflexivity.
Defined.

(** ** A call that fails to settle *)

(** X7.  When the outbound call is rejected (the upstream cannot be
    reached), the handler returns status 500 with the three CORS headers and the
    JSON text of [{ error: message }], the message being that of the
    rejection; the call is made once and written to the console once. *)
Theorem rejected_call_is_500
        (e : process_env) (event : Event.t) (upstream : fetch_request -> settlement)
        (call : fetch_request) (err : js_error) :
  In call (outbound (run upstream (handler e event)).2) ->
  upstream call = Throws err ->
  run upstream (handler e event) =
  (Normal {| Response.statusCode := 500;
             Response.headers :=
               Some [("Access-Control-Allow-Origin", "*");
                     ("Access-Control-Allow-Headers", "Content-Type, Authorization");
                     ("Access-Control-Allow-Methods", "POST, OPTIONS")];
             Response.body :=
               JSON.stringify (JObject [("error", JString (err_message err))]) |},
   [Fetched call; Logged "Function Error:" err]).
Proof.
  intros Hin Hup.
  destruct (the_outbound_call e event upstream call Hin)
    as (e' & <- & [[_ Hr] | (props & _ & _ & Hr)]); rewrite Hr, Hup; reflexivity.
Qed.

Lemma rejected_call_is_500_witness :
  run (fun _ => Throws (TypeError "fetch failed"))
      (handler Sample.config (Sample.request "POST" ∅ (Some Sample.hold_text))) =
  (Normal {| Response.statusCode := 500;
             Response.headers :=
               Some [("Access-Control-Allow-Origin", "*");
                     ("Access-Control-Allow-Headers", "Content-Type, Authorization");
                     ("Access-Control-Allow-Methods", "POST, OPTIONS")];
             Response.body := Str.dq "{'error':'fetch failed'}" |},
   [Fetched (hold_token_call Sample.config);
    Logged "Function Error:" (TypeError "fetch failed")]).
Proof.
  apply (rejected_call_is_500
           Sample.config (Sample.request "POST" ∅ (Some Sample.hold_text))
           (fun _ => Throws (TypeError "fetch failed"))
           (hold_token_call Sample.config) (TypeError "fetch failed")).
  - vm_compute. left. reflexivity.
  - reflexivity.
Defined.

(** ** What the handler reads of a request *)

(** X8.  The headers of the request are read by the bookSeat branch only:
    for a request whose action is not [bookSeat] (createHoldToken among
    them, which therefore needs no credential) the computation is the same
    whatever headers it carries. *)
Theorem headers_matter_to_bookSeat_only
        (e : process_env) (event : Event.t) (hs : gmap string string) :
  (forall body,
      request_body event = Normal body ->
      get_prop body "action" ≠ Normal (Some (JString "bookSeat"))) ->
  handler e {| Event.httpMethod := Event.httpMethod event;
               Event.headers := hs;
               Event.body := Event.body event |}
  = handler e event.
Proof.
  intros Hnot. unfold request_body in Hnot. unfold handler, dispatch. simpl.
  destruct (String.eqb (Event.httpMethod event) "OPTIONS"); [ reflexivity | ].
  f_equal.
  destruct (JSON.parse (or_default (Event.body event) "{}")) as [body | err];
    [ | reflexivity ].
  specialize (Hnot body eq_refl).
  simpl. destruct (get_prop body "action") as [action | err]; [ | reflexivity ].
  simpl. destruct (is_string action "createHoldToken"); [ reflexivity | ].
  destruct (is_string action "bookSeat") eqn:Hk; [ | reflexivity ].
  apply is_string_true in Hk. subst action. contradiction.
Qed.

Lemma headers_matter_to_bookSeat_only_witness :
  handler Sample.config (Sample.request "POST" Sample.forged (Some Sample.hold_text))
  = handler Sample.config (Sample.request "POST" ∅ (Some Sample.hold_text)).
Proof.
  apply (headers_matter_to_bookSeat_only
           Sample.config (Sample.request "POST" ∅ (Some Sample.hold_text))
           Sample.forged).
  intros body Hb. vm_compute in Hb. injection Hb as <-. discriminate.
Defined.

(** X9.  The method is compared with OPTIONS and with nothing else: a
    request is handled the same under any two methods other than OPTIONS,
    so GET or PUT are dispatched like POST. *)
Theorem other_methods_are_dispatched_alike
        (e : process_env) (event : Event.t) (m : string) :
  Event.httpMethod event ≠ "OPTIONS" ->
  m ≠ "OPTIONS" ->
  handler e {| Event.httpMethod := m;
               Event.headers := Event.headers event;
               Event.body := Event.body event |}
  = handler e event.
Proof.
  intros H1 H2. unfold handler. simpl.
  destruct (String.eqb_spec (Event.httpMethod event) "OPTIONS"); [ contradiction | ].
  destruct (String.eqb_spec m "OPTIONS"); [ contradiction | ].
  reflexivity.
Qed.

Lemma other_methods_are_dispatched_alike_witness :
  handler Sample.config (Sample.request "GET" Sample.signed (Some Sample.book_text))
  = handler Sample.config (Sample.request "POST" Sample.signed (Some Sample.book_text)).
Proof.
  apply (other_methods_are_dispatched_alike
           Sample.config
           (Sample.request "POST" Sample.signed (Some Sample.book_text)) "GET");
    discriminate.
Defined.

(** X10.  Of a body that is an object the handler reads three properties,
    [action], [seatId] and [holdToken]: two requests with the same method
    and headers whose bodies agree on these three are handled the same, so
    no other property of the body reaches the upstream or the response. *)
Theorem only_three_properties_are_read
        (e : process_env) (event1 event2 : Event.t) (props1 props2 : list (string * json)) :
  Event.httpMethod event1 = Event.httpMethod event2 ->
  Event.headers event1 = Event.headers event2 ->
  request_body event1 = Normal (JObject props1) ->
  request_body event2 = Normal (JObject props2) ->
  Obj.get props1 "action" = Obj.get props2 "action" ->
  Obj.get props1 "seatId" = Obj.get props2 "seatId" ->
  Obj.get props1 "holdToken" = Obj.get props2 "holdToken" ->
  handler e event1 = handler e event2.
Proof.
  unfold request_body, handler, dispatch.
  intros -> -> -> -> Ha Hs Ht. simpl. rewrite Ha, Hs, Ht. reflexivity.
Qed.

Lemma only_three_properties_are_read_witness :
  handler Sample.config
          (Sample.request "POST" Sample.signed
             (Some (Str.dq "{'seatId':'A-12','note':'x','holdToken':'tok-1','action':'bookSeat'}")))
  = handler Sample.config
            (Sample.request "POST" Sample.signed (Some Sample.book_text)).
Proof.
  apply (only_three_properties_are_read
           Sample.config _ _
           [("seatId", JString "A-12"); ("note", JString "x");
            ("holdToken", JString "tok-1"); ("action", JString "bookSeat")]
           Sample.book_fields);
    try reflexivity; vm_compute; reflexivity.
Defined.

(** ** Upstream answers that cannot be used *)

(** X11.  The hold token is not checked.  When the upstream answers the
    hold-token call with a success status and JSON that is not [null] and
    has no [holdToken] (an object without it, an array, a string, a
    number), the handler still returns 200, with a body that has no
    [holdToken]: only [eventKey], or nothing when the event identifier is
    not set. *)
Theorem missing_hold_token_is_not_detected
        (e : env) (event : Event.t) (upstream : fetch_request -> settlement)
        (r : upstream_response) (t : string) (parsed : json) :
  Event.httpMethod event ≠ "OPTIONS" ->
  asks_hold_token event ->
  upstream (hold_token_call e) = Normal r ->
  ok r = true ->
  payload r = Normal t ->
  JSON.parse t = Normal parsed ->
  destructure parsed "holdToken" = Normal None ->
  run upstream (handler e event) =
  (Normal {| Response.statusCode := 200;
             Response.headers := Some corsHeaders;
             Response.body :=
               JSON.stringify
                 (JObject match SEATSIO_EVENT_KEY e with
                          | Some k => [("eventKey", JString k)]
                          | None => []
                          end) |},
   [Fetched (hold_token_call e)]).
Proof.
  intros Hm (body & Hb & Ha) Hr Hok Hp Hj Hd.
  rewrite run_handler by exact Hm.
  rewrite (run_dispatch_hold_token e event upstream body Hb Ha).
  unfold hold_token_outcome. rewrite Hr, Hp, Hok, Hj, Hd. unfold hold_token_response.
  destruct (SEATSIO_EVENT_KEY e); reflexivity.
Qed.

Lemma missing_hold_token_is_not_detected_witness :
  run (fun _ => Normal {| ok := true; payload := Normal "[]" |})
      (handler Sample.config (Sample.request "POST" ∅ (Some Sample.hold_text))) =
  (Normal {| Response.statusCode := 200;
             Response.headers := Some corsHeaders;
             Response.body := Str.dq "{'eventKey':'evt-2024'}" |},
   [Fetched (hold_token_call Sample.config)]).
Proof.
  apply (missing_hold_token_is_not_detected
           Sample.config (Sample.request "POST" ∅ (Some Sample.hold_text))
           (fun _ => Normal {| ok := true; payload := Normal "[]" |})
           {| ok := true; payload := Normal "[]" |} "[]" (JArray [])).
  - discriminate.
  - exists (JObject [("action", JString "createHoldToken")]).
    split; [ vm_compute; reflexivity | reflexivity ].
  - reflexivity.
  - reflexivity.
  - reflexivity.
  - vm_compute. reflexivity.
  - reflexivity.
Defined.

(** X12.  When the upstream answers the hold-token call with a success
    status and a body that cannot be read, is not JSON, or is the JSON
    [null], the handler returns status 500 with the message of the error
    this raises, after the one call. *)
Theorem unusable_hold_token_answer_is_500
        (e : env) (event : Event.t) (upstream : fetch_request -> settlement)
        (r : upstream_response) (err : js_error) :
  Event.httpMethod event ≠ "OPTIONS" ->
  asks_hold_token event ->
  upstream (hold_token_call e) = Normal r ->
  ok r = true ->
  payload r = Throws err
  \/ (exists t, payload r = Normal t /\ JSON.parse t = Throws err)
  \/ (exists t, payload r = Normal t /\ JSON.parse t = Normal JNull
                /\ destructure JNull "holdToken" = Throws err) ->
  run upstream (handler e event) =
  (Normal {| Response.statusCode := 500;
             Response.headers := Some corsHeaders;
             Response.body :=
               JSON.stringify (JObject [("error", JString (err_message err))]) |},
   [Fetched (hold_token_call e); Logged "Function Error:" err]).
Proof.
  intros Hm (body & Hb & Ha) Hr Hok Hbad.
  rewrite run_handler by exact Hm.
  rewrite (run_dispatch_hold_token e event upstream body Hb Ha).
  unfold hold_token_outcome. rewrite Hr, Hok.
  destruct Hbad as [-> | [(t & -> & ->) | (t & -> & -> & ->)]]; reflexivity.
Qed.

Lemma unusable_hold_token_answer_is_500_witness :
  exists err,
    err_name err = "TypeError"
    /\ run (fun _ => Normal {| ok := true; payload := Normal "null" |})
           (handler Sample.config (Sample.request "POST" ∅ (Some Sample.hold_text))) =
       (Normal {| Response.statusCode := 500;
                  Response.headers := Some corsHeaders;
                  Response.body :=
                    JSON.stringify (JObject [("error", JString (err_message err))]) |},
        [Fetched (hold_token_call Sample.config); Logged "Function Error:" err]).
Proof.
  eexists. split; [ | ].
  2: { apply (unusable_hold_token_answer_is_500
                Sample.config (Sample.request "POST" ∅ (Some Sample.hold_text))
                (fun _ => Normal {| ok := true; payload := Normal "null" |})
                {| ok := true; payload := Normal "null" |}).
       - discriminate.
       - exists (JObject [("action", JString "createHoldToken")]).
         split; [ vm_compute; reflexivity | reflexivity ].
       - reflexivity.
       - reflexivity.
       - right. right. exists "null".
         split; [ reflexivity | ]. split; [ vm_compute; reflexivity | reflexivity ]. }
  reflexivity.
Defined.

(** ** Bodies that are not objects *)

(** X13.  A body that is the JSON [null] is not taken for an empty object:
    reading its [action] raises a TypeError, which is answered with status
    500 before any call is made. *)
Theorem null_body_is_500
        (e : process_env) (event : Event.t) (upstream : fetch_request -> settlement) :
  Event.httpMethod event ≠ "OPTIONS" ->
  request_body event = Normal JNull ->
  exists err,
    err_name err = "TypeError"
    /\ run upstream (handler e event) =
       (Normal {| Response.statusCode := 500;
                  Response.headers := Some corsHeaders;
                  Response.body :=
                    JSON.stringify (JObject [("error", JString (err_message err))]) |},
        [Logged "Function Error:" err]).
Proof.
  intros Hm Hb. eexists. split; [ | ].
  2: { rewrite run_handler by exact Hm.
       revert Hb. unfold request_body, dispatch. intros ->. reflexivity. }
  reflexivity.
Qed.

Lemma null_body_is_500_witness :
  exists err,
    err_name err = "TypeError"
    /\ run Sample.accepting
           (handler Sample.config (Sample.request "POST" ∅ (Some " null "))) =
       (Normal {| Response.statusCode := 500;
                  Response.headers := Some corsHeaders;
                  Response.body :=
                    JSON.stringify (JObject [("error", JString (err_message err))]) |},
        [Logged "Function Error:" err]).
Proof.
  apply (null_body_is_500 Sample.config _ Sample.accepting).
  - discriminate.
  - vm_compute. reflexivity.
Defined.

(** ** Configuration that is not set *)



(** X15.  Keys that are not set are not detected either: with no secret
    key every call carries the Basic credentials of the text
    [undefined:], and with no event identifier the booking call goes to
    the event named [undefined]. *)
Theorem unset_keys_are_sent_as_undefined
        (e : process_env) (event : Event.t) (upstream : fetch_request -> settlement)
        (call : fetch_request) :
  In call (outbound (run upstream (handler e event)).2) ->
  (SEATSIO_SECRET_KEY e = None ->
   In ("Authorization", "Basic dW5kZWZpbmVkOg==") (req_headers call))
  /\ (SEATSIO_EVENT_KEY e = None ->
      url call = "https://api.seats.io/hold-tokens"
      \/ url call = "https://api.seats.io/events/undefined/actions/book").
Proof.
  intros Hin.
  destruct (the_outbound_call e event upstream call Hin)
    as (e' & <- & [[-> _] | (props & _ & -> & _)]);
    destruct (btoa_key e') as (c & Hc & Hb).
  - split.
    + intros Hk. rewrite Hk in Hc. vm_compute in Hc. injection Hc as <-.
      simpl. rewrite Hb. left. reflexivity.
    + intros _. left. reflexivity.
  - split.
    + intros Hk. rewrite Hk in Hc. vm_compute in Hc. injection Hc as <-.
      simpl. rewrite Hb. right. left. reflexivity.
    + intros Hk. right. simpl. rewrite Hk. reflexivity.
Qed.

Lemma unset_keys_are_sent_as_undefined_witness :
  In ("Authorization", "Basic dW5kZWZpbmVkOg==")
     (req_headers (hold_token_call Sample.no_secret_key)).
Proof.
  refine (proj1 (unset_keys_are_sent_as_undefined
                   Sample.no_secret_key
                   (Sample.request "POST" ∅ (Some Sample.hold_text))
                   Sample.accepting
                   (hold_token_call Sample.no_secret_key) _) _).
  - vm_compute. left. reflexivity.
  - reflexivity.
Defined.

(** ** The JSON text the handler writes can be read back *)

Lemma chars_append (a b : string) :
  Str.chars (a +:+ b) = Str.chars a ++ Str.chars b.
Proof.
  induction a as [ | c a IH ]; [ reflexivity | ].
  change (String c a +:+ b) with (String c (a +:+ b)).
  unfold Str.chars in *. simpl. rewrite IH. reflexivity.
Qed.

Lemma of_chars_chars (s : string) : Str.of_chars (Str.chars s) = s.
Proof. apply string_of_list_ascii_of_string. Qed.

Lemma chars_of_chars (l : list ascii) : Str.chars (Str.of_chars l) = l.
Proof. apply list_ascii_of_string_of_list_ascii. Qed.

Lemma lex_cons (st : JSON.lex_state) (c : ascii) (rest : list ascii) :
  JSON.lex st (c :: rest) =
  match JSON.lex_step st c with
  | Some (st', ts) =>
      match JSON.lex st' rest with
      | Some ts' => Some (ts ++ ts')
      | None => None
      end
  | None => None
  end.
Proof. reflexivity. Qed.

Ltac lex_one :=
  rewrite lex_cons;
  match goal with
  | |- context [JSON.lex_step ?st ?c] =>
      let r := eval vm_compute in (JSON.lex_step st c) in
      change (JSON.lex_step st c) with r
  end;
  cbv beta iota.

Lemma lex_quote_char (c : ascii) (acc rest : list ascii) :
  JSON.lex (JSON.LString acc) (Str.chars (JSON.quote_char c) ++ rest)
  = JSON.lex (JSON.LString (c :: acc)) rest.
Proof.
  destruct c as [b0 b1 b2 b3 b4 b5 b6 b7];
    destruct b0, b1, b2, b3, b4, b5, b6, b7;
    match goal with
    | |- context [Str.chars (JSON.quote_char ?c)] =>
        let l := eval vm_compute in (Str.chars (JSON.quote_char c)) in
        change (Str.chars (JSON.quote_char c)) with l
    end;
    cbn [app];
    repeat lex_one;
    destruct (JSON.lex _ rest); reflexivity.
Qed.

Lemma lex_quiet_app (l : list ascii) (st st' : JSON.lex_state) (rest : list ascii) :
  JSON.lex_quiet st l = Some st' ->
  JSON.lex st (l ++ rest) = JSON.lex st' rest.
Proof.
  revert st. induction l as [ | c l IH ]; intros st; cbn [JSON.lex_quiet app].
  - intros H. injection H as <-. reflexivity.
  - rewrite lex_cons.
    destruct (JSON.lex_step st c) as [[st1 [ | t ts]] | ]; try discriminate.
    intros H. rewrite (IH _ H). destruct (JSON.lex st' rest); reflexivity.
Qed.

(** The escape of a surrogate is read back as the surrogate: one case for
    each of the 2048 of them. *)
Lemma lex_escape_unit (a b c : ascii) (acc rest : list ascii) :
  JSON.is_surrogate a b c = true ->
  JSON.lex (JSON.LString acc) (JSON.escape_unit b c ++ rest)
  = JSON.lex (JSON.LString (c :: b :: a :: acc)) rest.
Proof.
  intros H. apply lex_quiet_app.
  destruct a as [a0 a1 a2 a3 a4 a5 a6 a7];
    destruct a0, a1, a2, a3, a4, a5, a6, a7;
    try (vm_compute in H; discriminate H).
  destruct b as [a0 a1 a2 a3 a4 a5 a6 a7];
    destruct a0, a1, a2, a3, a4, a5, a6, a7;
    try (vm_compute in H; discriminate H).
  all: destruct c as [a0 a1 a2 a3 a4 a5 a6 a7];
    destruct a0, a1, a2, a3, a4, a5, a6, a7;
    try (vm_compute in H; discriminate H).
  all: vm_compute; reflexivity.
Qed.

Lemma lex_raw (c : ascii) (acc rest : list ascii) :
  128 <= Str.code c ->
  JSON.lex (JSON.LString acc) (c :: rest) = JSON.lex (JSON.LString (c :: acc)) rest.
Proof.
  intros H. rewrite lex_cons. unfold JSON.lex_step.
  destruct (Z.eqb_spec (Str.code c) 34); [ lia | ].
  destruct (Z.eqb_spec (Str.code c) 92); [ lia | ].
  destruct (Z.ltb_spec (Str.code c) 32); [ lia | ].
  destruct (JSON.lex _ rest); reflexivity.
Qed.

Lemma lex_surrogate (a b c : ascii) (acc rest : list ascii) :
  JSON.is_surrogate a b c = true ->
  JSON.lex (JSON.LString acc) (a :: b :: c :: rest)
  = JSON.lex (JSON.LString (c :: b :: a :: acc)) rest.
Proof.
  unfold JSON.is_surrogate, Str.is_tail. intros H.
  repeat (apply andb_true_iff in H as [H ?]).
  rewrite !lex_raw; [ reflexivity | lia | lia | lia ].
Qed.

Lemma quote_list_cons (a : ascii) (rest : list ascii) :
  JSON.quote_list (a :: rest) =
  match rest with
  | b :: c :: rest' =>
      if JSON.is_surrogate a b c then
        match rest' with
        | a' :: b' :: c' :: rest'' =>
            if JSON.is_leading b && JSON.is_surrogate a' b' c' && JSON.is_trailing b'
            then a :: b :: c :: a' :: b' :: c' :: JSON.quote_list rest''
            else JSON.escape_unit b c ++ JSON.quote_list rest'
        | _ => JSON.escape_unit b c ++ JSON.quote_list rest'
        end
      else Str.chars (JSON.quote_char a) ++ JSON.quote_list rest
  | _ => Str.chars (JSON.quote_char a) ++ JSON.quote_list rest
  end.
Proof. reflexivity. Qed.

Lemma lex_quote_list (n : nat) (l acc rest : list ascii) :
  (List.length l <= n)%nat ->
  JSON.lex (JSON.LString acc) (JSON.quote_list l ++ Str.of_code 34 :: rest)
  = match JSON.lex JSON.LStart rest with
    | Some ts => Some (JSON.TString (Str.of_chars (rev acc ++ l)) :: ts)
    | None => None
    end.
Proof.
  revert l acc. induction n as [ | n IH ]; intros l acc Hn.
  { destruct l; [ | simpl in Hn; lia ].
    cbn [JSON.quote_list app]. lex_one. rewrite app_nil_r.
    destruct (JSON.lex JSON.LStart rest); reflexivity. }
  destruct l as [ | a l ].
  { cbn [JSON.quote_list app]. lex_one. rewrite app_nil_r.
    destruct (JSON.lex JSON.LStart rest); reflexivity. }
  assert (Hplain :
    JSON.lex (JSON.LString acc)
             ((Str.chars (JSON.quote_char a) ++ JSON.quote_list l)
              ++ Str.of_code 34 :: rest)
    = match JSON.lex JSON.LStart rest with
      | Some ts => Some (JSON.TString (Str.of_chars (rev acc ++ a :: l)) :: ts)
      | None => None
      end).
  { rewrite <- app_assoc, lex_quote_char, IH by (simpl in Hn; lia).
    cbn [rev]. rewrite <- app_assoc. reflexivity. }
  rewrite quote_list_cons.
  destruct l as [ | b [ | c l ] ]; try exact Hplain.
  destruct (JSON.is_surrogate a b c) eqn:Hs; [ clear Hplain | exact Hplain ].
  assert (Hescape :
    JSON.lex (JSON.LString acc)
             ((JSON.escape_unit b c ++ JSON.quote_list l) ++ Str.of_code 34 :: rest)
    = match JSON.lex JSON.LStart rest with
      | Some ts =>
          Some (JSON.TString (Str.of_chars (rev acc ++ a :: b :: c :: l)) :: ts)
      | None => None
      end).
  { rewrite <- app_assoc, (lex_escape_unit a) by exact Hs.
    rewrite IH by (simpl in Hn; lia).
    cbn [rev]. rewrite <- !app_assoc. reflexivity. }
  destruct l as [ | a' [ | b' [ | c' l ] ] ]; try exact Hescape.
  destruct (JSON.is_leading b && JSON.is_surrogate a' b' c' && JSON.is_trailing b')
    eqn:Hp; [ clear Hescape | exact Hescape ].
  apply andb_true_iff in Hp as [Hp _]. apply andb_true_iff in Hp as [_ Hp].
  cbn [app]. rewrite (lex_surrogate a) by exact Hs.
  rewrite (lex_surrogate a') by exact Hp.
  rewrite IH by (simpl in Hn; lia).
  cbn [rev]. rewrite <- !app_assoc. reflexivity.
Qed.

(** A quoted string is read back as the string, whatever it holds. *)
Lemma lex_quote (s : string) (rest : list ascii) :
  JSON.lex JSON.LStart (Str.chars (JSON.quote s) ++ rest)
  = match JSON.lex JSON.LStart rest with
    | Some ts => Some (JSON.TString s :: ts)
    | None => None
    end.
Proof.
  unfold JSON.quote. rewrite !chars_append, chars_of_chars.
  change (Str.chars (String (Str.of_code 34) "")) with [Str.of_code 34].
  rewrite <- !app_assoc. cbn [app]. lex_one.
  rewrite (lex_quote_list (List.length (Str.chars s))) by lia.
  cbn [rev app]. rewrite of_chars_chars.
  destruct (JSON.lex JSON.LStart rest); reflexivity.
Qed.

Ltac lex_text :=
  repeat first [ rewrite lex_quote | lex_one ].

(** Open the JSON text of a value into its code units, and read it. *)
Ltac read_back :=
  unfold JSON.parse, JSON.stringify_literal;
  cbn [JSON.stringify JSON.defined_props List.map String.concat fst snd];
  rewrite !chars_append;
  change (Str.chars "{") with ["{"%char];
  change (Str.chars "}") with ["}"%char];
  change (Str.chars "[") with ["["%char];
  change (Str.chars "]") with ["]"%char];
  change (Str.chars ":") with [":"%char];
  change (Str.chars ",") with [","%char];
  rewrite <- ?app_assoc; cbn [app];
  lex_text;
  vm_compute; reflexivity.

Lemma parse_error_text (msg : string) :
  JSON.parse (JSON.stringify (JObject [("error", JString msg)]))
  = Normal (JObject [("error", JString msg)]).
Proof. read_back. Qed.

Lemma parse_booking_text (seatId holdToken : string) :
  JSON.parse (JSON.stringify (JObject [("objects", JArray [JString seatId]);
                                       ("holdToken", JString holdToken)]))
  = Normal (JObject [("objects", JArray [JString seatId]);
                     ("holdToken", JString holdToken)]).
Proof. read_back. Qed.

Lemma parse_token_text (holdToken eventKey : string) :
  JSON.parse (JSON.stringify (JObject [("holdToken", JString holdToken);
                                       ("eventKey", JString eventKey)]))
  = Normal (JObject [("holdToken", JString holdToken);
                     ("eventKey", JString eventKey)]).
Proof. read_back. Qed.

Lemma a_500_is_a_caught_error
      (e : process_env) (event : Event.t) (upstream : fetch_request -> settlement)
      (resp : Response.t) (fx : list effect) :
  run upstream (handler e event) = (Normal resp, fx) ->
  Response.statusCode resp = 500 ->
  exists err, resp = error_response err /\ In (Logged "Function Error:" err) fx.
Proof.
  assert (Hc : forall c call,
             (forall r, c = Normal r -> Response.statusCode r = 200) ->
             caught c [Fetched call] = (Normal resp, fx) ->
             Response.statusCode resp = 500 ->
             exists err, resp = error_response err
                         /\ In (Logged "Function Error:" err) fx).
  { intros [r | err] call H200 H Hs; simpl in H; injection H as <- <-.
    - rewrite (H200 r eq_refl) in Hs. discriminate.
    - exists err. split; [ reflexivity | right; left; reflexivity ]. }
  intros Hrun Hs.
  destruct (run_ways e event upstream)
    as [[_ Hr] | [(_ & err & _ & Hr) | [(_ & _ & Hr)
       | [(e' & <- & _ & _ & Hr) | (e' & props & <- & _ & _ & Hr)]]]];
    rewrite Hr in Hrun.
  - injection Hrun as <- _. discriminate.
  - injection Hrun as <- <-. exists err. split; [ reflexivity | left; reflexivity ].
  - injection Hrun as <- _. discriminate.
  - apply (Hc _ _) with (2 := Hrun); [ | exact Hs ].
    intros r Ho. unfold hold_token_outcome in Ho.
    destruct (upstream _) as [u | ?]; [ | discriminate ].
    destruct (payload u) as [t | ?]; [ | discriminate ].
    destruct (ok u); [ | discriminate ].
    destruct (JSON.parse t) as [parsed | ?]; [ | discriminate ].
    destruct (destructure parsed "holdToken"); [ | discriminate ].
    injection Ho as <-. reflexivity.
  - apply (Hc _ _) with (2 := Hrun); [ | exact Hs ].
    intros r Ho. unfold booking_outcome in Ho.
    destruct (upstream _) as [u | ?]; [ | discriminate ].
    destruct (ok u);
      [ destruct (ToString_value _); [ injection Ho as <-; reflexivity | discriminate ] | ].
    destruct (payload u); discriminate.
Qed.

(** X16.  The body of every 500 response is JSON text that reads back as
    an object with the single property [error], whose value is the message
    of the error written to the console, whatever code units that message
    holds (quotes, backslashes and line breaks of an upstream body
    included). *)
Theorem error_body_reads_back
        (e : process_env) (event : Event.t) (upstream : fetch_request -> settlement)
        (resp : Response.t) (fx : list effect) :
  run upstream (handler e event) = (Normal resp, fx) ->
  Response.statusCode resp = 500 ->
  exists err,
    In (Logged "Function Error:" err) fx
    /\ JSON.parse (Response.body resp)
       = Normal (JObject [("error", JString (err_message err))]).
Proof.
  intros Hrun Hs.
  destruct (a_500_is_a_caught_error e event upstream resp fx Hrun Hs)
    as (err & -> & Hin).
  exists err. split; [ exact Hin | ]. apply parse_error_text.
Qed.

Lemma error_body_reads_back_witness :
  exists err,
    In (Logged "Function Error:" err)
       [Fetched (hold_token_call Sample.config);
        Logged "Function Error:"
               (Error ("seats.io API error: " +:+ Str.dq "{'messages':['taken']}"))]
    /\ JSON.parse
         (Response.body
            (error_response
               (Error ("seats.io API error: " +:+ Str.dq "{'messages':['taken']}"))))
       = Normal (JObject [("error", JString (err_message err))]).
Proof.
  apply (error_body_reads_back
           Sample.config (Sample.request "POST" ∅ (Some Sample.hold_text))
           (fun _ => Normal {| ok := false;
                               payload := Normal (Str.dq "{'messages':['taken']}") |})).
  - vm_compute. reflexivity.
  - reflexivity.
Defined.

(** X17.  A [seatId] and a [holdToken] that are strings reach the upstream
    unchanged: the body of the booking call is JSON text that reads back
    as [{ objects: [seatId], holdToken }] with the two strings of the
    request, whatever code units they hold. *)
Theorem booking_text_reads_back
        (e : env) (event : Event.t) (upstream : fetch_request -> settlement)
        (props : list (string * json)) (seatId holdToken : string) :
  Event.httpMethod event ≠ "OPTIONS" ->
  request_body event = Normal (JObject props) ->
  Obj.get props "action" = Some (JString "bookSeat") ->
  authorized e event ->
  Obj.get props "seatId" = Some (JString seatId) ->
  seatId ≠ "" ->
  Obj.get props "holdToken" = Some (JString holdToken) ->
  holdToken ≠ "" ->
  exists call text,
    outbound (run upstream (handler e event)).2 = [call]
    /\ req_body call = Some text
    /\ JSON.parse text
       = Normal (JObject [("objects", JArray [JString seatId]);
                          ("holdToken", JString holdToken)]).
Proof.
  intros Hm Hb Ha Hauth Hs Hsn Ht Htn.
  assert (Hst : ToBoolean (Obj.get props "seatId") = true).
  { rewrite Hs. simpl. apply negb_true_iff, String.eqb_neq. exact Hsn. }
  assert (Htt : ToBoolean (Obj.get props "holdToken") = true).
  { rewrite Ht. simpl. apply negb_true_iff, String.eqb_neq. exact Htn. }
  eexists _, _. split; [ | split ].
  - rewrite run_handler by exact Hm.
    rewrite (run_dispatch_book e event upstream props Hb Ha Hauth Hst Htt).
    cbv zeta.
    destruct (booking_outcome _ (upstream (book_call e _ _))); reflexivity.
  - reflexivity.
  - rewrite Hs, Ht. apply parse_booking_text.
Qed.

Lemma booking_text_reads_back_witness :
  exists call text,
    outbound (run Sample.accepting
                  (handler Sample.config
                           (Sample.request "POST" Sample.signed
                                           (Some Sample.book_text)))).2 = [call]
    /\ req_body call = Some text
    /\ JSON.parse text
       = Normal (JObject [("objects", JArray [JString "A-12"]);
                          ("holdToken", JString "tok-1")]).
Proof.
  apply (booking_text_reads_back
           Sample.config _ Sample.accepting Sample.book_fields).
  - discriminate.
  - vm_compute. reflexivity.
  - reflexivity.
  - vm_compute. reflexivity.
  - reflexivity.
  - discriminate.
  - reflexivity.
  - discriminate.
Defined.

(** X18.  A hold token that is a string reaches the caller unchanged: the
    body of the 200 response is JSON text that reads back as
    [{ holdToken, eventKey }] with the token of the upstream and the
    configured event identifier. *)
Theorem token_text_reads_back
        (e : env) (event : Event.t) (upstream : fetch_request -> settlement)
        (r : upstream_response) (t : string) (fields : list (string * json))
        (holdToken eventKey : string) :
  Event.httpMethod event ≠ "OPTIONS" ->
  asks_hold_token event ->
  SEATSIO_EVENT_KEY e = Some eventKey ->
  upstream (hold_token_call e) = Normal r ->
  ok r = true ->
  payload r = Normal t ->
  JSON.parse t = Normal (JObject fields) ->
  Obj.get fields "holdToken" = Some (JString holdToken) ->
  exists resp,
    run upstream (handler e event) = (Normal resp, [Fetched (hold_token_call e)])
    /\ Response.statusCode resp = 200
    /\ JSON.parse (Response.body resp)
       = Normal (JObject [("holdToken", JString holdToken);
                          ("eventKey", JString eventKey)]).
Proof.
  intros Hm (body & Hb & Ha) He Hr Hok Hp Hj Hg.
  rewrite run_handler by exact Hm.
  rewrite (run_dispatch_hold_token e event upstream body Hb Ha).
  unfold hold_token_outcome. rewrite Hr, Hp, Hok, Hj. simpl. rewrite Hg.
  eexists. split; [ reflexivity | ]. split; [ reflexivity | ].
  unfold hold_token_response. rewrite He. apply parse_token_text.
Qed.

Lemma token_text_reads_back_witness :
  exists resp,
    run Sample.accepting
        (handler Sample.config (Sample.request "POST" ∅ (Some Sample.hold_text)))
    = (Normal resp, [Fetched (hold_token_call Sample.config)])
    /\ Response.statusCode resp = 200
    /\ JSON.parse (Response.body resp)
       = Normal (JObject [("holdToken", JString "tok-1");
                          ("eventKey", JString "evt-2024")]).
Proof.
  apply (token_text_reads_back
           Sample.config _ Sample.accepting
           {| ok := true; payload := Normal (Str.dq "{'holdToken':'tok-1'}") |}
           (Str.dq "{'holdToken':'tok-1'}")
           [("holdToken", JString "tok-1")]).
  - discriminate.
  - exists (JObject [("action", JString "createHoldToken")]).
    split; [ vm_compute; reflexivity | reflexivity ].
  - reflexivity.
  - reflexivity.
  - reflexivity.
  - reflexivity.
  - vm_compute. reflexivity.
  - reflexivity.
Defined.



